(** * validate_links: a shallow embedding of [.github/validate_links.py]

    The script checks every plugin metadata file of the registry: the [id]
    is lowerCamelCase, the screenshot and repository URLs are reachable, the
    optional monorepo path exists, and [id]/[name] agree with the
    [plugin.json] of the plugin's own repository.

    How the Python is embedded:
    - a [str] is a [string], an [int] a [Z], a list a [list];
    - a dict decoded from JSON is a [gmap string string]: the records the
      script reads (the local one and the remote [plugin.json]) are objects
      whose fields are strings;
    - a function that sends requests or prints returns its result together
      with the trace of what it sent and printed ([IO]);
    - the network answers a request with a response or with one of the
      exceptions of [requests]; the answer is a function of the request;
    - [urlparse], the [GITHUB_TOKEN] environment variable and the network
      are parameters: every statement of the [Script] section holds for all
      of them.  [Url.urlparse] and the networks of [Examples] are instances
      on which the script is run at the end of the file. *)

From Stdlib Require Import ZArith Ascii String List Bool Lia.
From Stdlib Require Import Sorted Permutation.
From stdpp Require Import base strings gmap pretty.

Local Open Scope string_scope.
Local Open Scope Z_scope.
Local Open Scope list_scope.

(** ** Python string methods used by the script *)

Module PyStr.

Definition LF : ascii := "010"%char.

(** [not s] on a [str]. *)
Definition is_empty (s : string) : bool :=
  match s with EmptyString => true | String _ _ => false end.

(** [s.lstrip(c)] for a one-character set. *)
Fixpoint lstrip (c : ascii) (s : string) : string :=
  match s with
  | String a s' => if Ascii.eqb a c then lstrip c s' else s
  | EmptyString => EmptyString
  end.

(** [s.rstrip(c)] for a one-character set. *)
Fixpoint rstrip (c : ascii) (s : string) : string :=
  match s with
  | String a s' =>
      let r := rstrip c s' in
      if Ascii.eqb a c && is_empty r then EmptyString else String a r
  | EmptyString => EmptyString
  end.

(** [s.strip(c)]. *)
Definition strip (c : ascii) (s : string) : string := rstrip c (lstrip c s).

(** [s.startswith(p)]. *)
Fixpoint startswith (s p : string) : bool :=
  match p, s with
  | EmptyString, _ => true
  | String a p', String b s' => Ascii.eqb a b && startswith s' p'
  | String _ _, EmptyString => false
  end.

(** [s.endswith(suffix)]. *)
Fixpoint endswith (s suffix : string) : bool :=
  String.eqb s suffix ||
  match s with
  | String _ s' => endswith s' suffix
  | EmptyString => false
  end.

(** [s[:-n]]. *)
Definition drop_last (n : nat) (s : string) : string :=
  String.substring 0 (String.length s - n) s.

(** [s.split(c)] for a one-character separator: never empty. *)
Fixpoint split (c : ascii) (s : string) : list string :=
  match s with
  | EmptyString => [EmptyString]
  | String a s' =>
      if Ascii.eqb a c then EmptyString :: split c s'
      else match split c s' with
           | h :: t => String a h :: t
           | [] => [String a EmptyString]
           end
  end.

(** [sub in s]. *)
Fixpoint contains (sub s : string) : bool :=
  startswith s sub ||
  match s with
  | String _ s' => contains sub s'
  | EmptyString => false
  end.

(** [str(n)] for an [int]. *)
Definition of_int (n : Z) : string := pretty n.

End PyStr.

(** ** The fragment of [re] used by [is_camel_case] *)

Module Re.

(** Patterns: anchors, a character set, a greedy starred character set,
    and concatenation. *)
Inductive regex : Type :=
| Bol
| Eol
| Set_ (p : ascii -> bool)
| StarSet (p : ascii -> bool)
| Seq (r1 r2 : regex).

(** [[lo-hi]] *)
Definition range (lo hi c : ascii) : bool :=
  (N_of_ascii lo <=? N_of_ascii c)%N && (N_of_ascii c <=? N_of_ascii hi)%N.

(** Without [re.MULTILINE], [$] matches at the end of the string and
    just before a newline that is the last character of the string. *)
Definition at_end (s : string) : bool :=
  match s with
  | EmptyString => true
  | String c EmptyString => Ascii.eqb c PyStr.LF
  | String _ (String _ _) => false
  end.

(** Greedy repetition of a character set with backtracking: the longest
    run is tried first, then shorter ones. *)
Fixpoint star (p : ascii -> bool) (pos : nat) (s : string)
    (k : nat -> string -> bool) : bool :=
  match s with
  | String c s' => (p c && star p (S pos) s' k) || k pos s
  | EmptyString => k pos s
  end.

(** Backtracking matcher at offset [pos], [s] being the rest of the
    subject; [k] continues with what is left. *)
Fixpoint run (r : regex) (pos : nat) (s : string)
    (k : nat -> string -> bool) : bool :=
  match r with
  | Bol => Nat.eqb pos 0 && k pos s
  | Eol => at_end s && k pos s
  | Set_ p =>
      match s with
      | String c s' => p c && k (S pos) s'
      | EmptyString => false
      end
  | StarSet p => star p pos s k
  | Seq r1 r2 => run r1 pos s (fun pos' s' => run r2 pos' s' k)
  end.

(** [bool(re.match(r, s))]: a match must start at offset 0 and may end
    anywhere. *)
Definition matches (r : regex) (s : string) : bool :=
  run r 0 s (fun _ _ => true).

End Re.

(** ** [is_camel_case] *)

Definition lower (c : ascii) : bool := Re.range "a" "z" c.
Definition upper (c : ascii) : bool := Re.range "A" "Z" c.
Definition digit (c : ascii) : bool := Re.range "0" "9" c.
Definition alnum (c : ascii) : bool := lower c || upper c || digit c.

(** [r'^[a-z][a-zA-Z0-9]*$'] *)
Definition camel_case_pattern : Re.regex :=
  Re.Seq Re.Bol (Re.Seq (Re.Set_ lower) (Re.Seq (Re.StarSet alnum) Re.Eol)).

Definition is_camel_case (s : string) : bool :=
  if PyStr.is_empty s then false
  else Re.matches camel_case_pattern s.

(** Every character of [s] satisfies [p]. *)
Fixpoint all_chars (p : ascii -> bool) (s : string) : bool :=
  match s with
  | EmptyString => true
  | String c s' => p c && all_chars p s'
  end.

(** The documented rule for an [id]: non-empty, a lowercase first letter,
    letters and digits only. *)
Definition camel_case_rule (s : string) : Prop :=
  s <> "" /\
  (exists c rest, s = String c rest /\ lower c = true) /\
  all_chars alnum s = true.

Definition newline : string := String PyStr.LF "".

(** ** The outside world *)

Module Url.

(** The result of [urllib.parse.urlparse]. *)
Record parse_result : Type := ParseResult {
  scheme : string;
  netloc : string;
  path : string;
  params : string;
  query : string;
  fragment : string
}.

(** [s.find(c)] from the left, as a split point: the text before the
    first character satisfying [stop], and the text from it on. *)
Fixpoint break (stop : ascii -> bool) (s : string) : string * string :=
  match s with
  | EmptyString => (EmptyString, EmptyString)
  | String a s' =>
      if stop a then (EmptyString, s)
      else let '(l, r) := break stop s' in (String a l, r)
  end.

Definition tail (s : string) : string :=
  match s with String _ s' => s' | EmptyString => EmptyString end.

Definition is_one_of (cs : list ascii) (a : ascii) : bool :=
  existsb (Ascii.eqb a) cs.

(** A reference instance of [urlparse] for URLs of the shape
    [scheme://netloc/path?query#fragment] without parameters, following
    [urlsplit]: the scheme ends at the first colon, the authority runs
    from [//] to the first of [/ ? #], then the fragment and the query
    are cut off.  It is used to run the script on concrete URLs; every
    statement of the [Script] section holds for any [urlparse]. *)
Definition urlparse (url : string) : parse_result :=
  let '(sch, rest) := break (is_one_of [":"%char]) url in
  let '(sch, rest) :=
    if PyStr.is_empty rest then (EmptyString, url) else (sch, tail rest) in
  let '(loc, rest) :=
    if PyStr.startswith rest "//"
    then break (is_one_of ["/"; "?"; "#"]%char) (tail (tail rest))
    else (EmptyString, rest) in
  let '(rest, frag) := break (is_one_of ["#"%char]) rest in
  let '(pth, qry) := break (is_one_of ["?"%char]) rest in
  ParseResult sch loc pth EmptyString (tail qry) (tail frag).

End Url.

Module Http.

Inductive method : Type := HEAD | GET.

(** The arguments of [requests.head] / [requests.get]. *)
Record request : Type := Request {
  req_method : method;
  req_url : string;
  req_headers : list (string * string);
  req_timeout : Z;
  req_allow_redirects : bool;
  req_stream : bool
}.

(** The subclasses of [requests.exceptions.RequestException] the script
    tells apart, each with its [str(e)]. *)
Inductive request_exception : Type :=
| Timeout (msg : string)
| ConnectionError (msg : string)
| OtherRequestException (msg : string).

Definition str (e : request_exception) : string :=
  match e with
  | Timeout msg | ConnectionError msg | OtherRequestException msg => msg
  end.

(** A response as its caller sees it: the status code and what
    [response.json()] gives, of type [J]. *)
Record response (J : Type) : Type := Response {
  status_code : Z;
  json : J
}.
Arguments Response {J} _ _.
Arguments status_code {J} _.
Arguments json {J} _.

Inductive outcome (J : Type) : Type :=
| Returned (r : response J)
| Raised (e : request_exception).
Arguments Returned {J} _.
Arguments Raised {J} _.

(** A decoded JSON document. *)
Inductive json_value : Type :=
| JObject (fields : gmap string string)
| JArray (items : list (gmap string string)).

(** [isinstance(data, list) and len(data) == 0] *)
Definition is_empty_list (data : json_value) : bool :=
  match data with
  | JArray [] => true
  | _ => false
  end.

(** The network.  The script uses [requests] in three ways and reads
    different things from the response in each:
    - [reach]: the reachability probes of [validate_url], which only
      look at the status code;
    - [listing]: the hosting provider's API, where [response.json()]
      either raises [JSONDecodeError] (left, with its message) or gives a
      document;
    - [raw_file]: the raw [plugin.json], where [response.json()] either
      raises or gives the object whose fields are then compared. *)
Record network : Type := Network {
  reach : request -> outcome unit;
  listing : request -> outcome (string + json_value);
  raw_file : request -> outcome (string + gmap string string)
}.

End Http.

Import Http.

(** What a run does to the outside: the requests it sends and the text it
    prints, in order. *)
Inductive event : Type :=
| Sent (r : request)
| Printed (text : string).

(** A computation with a result and the trace of its events. *)
Definition IO (A : Type) : Type := (A * list event)%type.

Definition ret {A} (a : A) : IO A := (a, []).

Definition bind {A B} (m : IO A) (k : A -> IO B) : IO B :=
  (fst (k (fst m)), snd m ++ snd (k (fst m))).

Notation "'let*' x ':=' m 'in' k" := (bind m (fun x => k))
  (at level 10, x name, m at level 100, k at level 200).
Notation "'let*' ' p ':=' m 'in' k" :=
  (bind m (fun x => match x with p => k end))
  (at level 10, p pattern, m at level 100, k at level 200).
Notation "m ';;' k" := (bind m (fun _ => k))
  (at level 100, k at level 200, right associativity).

(** [print(text, end=end_)] *)
Definition print_end (text end_ : string) : IO unit :=
  (tt, [Printed (text +:+ end_)]).

(** [print(text)] *)
Definition print (text : string) : IO unit :=
  print_end text (String PyStr.LF EmptyString).

(** ANSI color codes for output *)
Definition ESC : ascii := "027"%char.
Definition GREEN : string := String ESC "[92m".
Definition RED : string := String ESC "[91m".
Definition YELLOW : string := String ESC "[93m".
Definition RESET : string := String ESC "[0m".

(** ** Plugin files *)

Module PyPath.

(** [s.rfind(c)], [None] for -1. *)
Fixpoint rfind (c : ascii) (s : string) : option nat :=
  match s with
  | EmptyString => None
  | String a s' =>
      match rfind c s' with
      | Some i => Some (S i)
      | None => if Ascii.eqb a c then Some O else None
      end
  end.

(** [pathlib]'s [stem]: the name without its last suffix; a leading or
    a final dot starts no suffix. *)
Definition stem (name : string) : string :=
  match rfind "." name with
  | Some i =>
      if (0 <? i)%nat && (S i <? String.length name)%nat
      then String.substring 0 i name
      else name
  | None => name
  end.

End PyPath.

(** What reading and decoding a plugin file gives: [open] fails, or
    [json.load] raises [JSONDecodeError], or it returns the record. *)
Inductive file_content : Type :=
| Unreadable (e : string)
| NotJson (e : string)
| Json (plugin : gmap string string).

Record plugin_file : Type := PluginFile {
  name : string;
  content : file_content
}.

Definition stem (f : plugin_file) : string := PyPath.stem (name f).

(** ** Concrete records and networks

    The data the closed lemmas at the end of the file run the script on. *)

Module Examples.

(** Every probe is answered with 200. *)
Definition reachable (_ : request) : outcome unit :=
  Returned (Response 200 tt).

(** Only the screenshot below is missing. *)
Definition screenshot_url : string := "https://example.org/shot.png".

Definition reachable_but_screenshot (r : request) : outcome unit :=
  if String.eqb (req_url r) screenshot_url then Returned (Response 404 tt)
  else Returned (Response 200 tt).

(** A listing with one entry. *)
Definition one_entry (_ : request) : outcome (string + json_value) :=
  Returned (Response 200 (inr (JArray [{[ "name" := "plugin.json" ]}]))).

(** A network on which every probe succeeds, every listing has an entry
    and every raw file is [document]. *)
Definition serving (document : gmap string string) : network :=
  Network reachable one_entry
    (fun _ => Returned (Response 200 (inr document))).

(** The same, with the screenshot unreachable. *)
Definition serving_without_screenshot (document : gmap string string)
  : network :=
  Network reachable_but_screenshot one_entry
    (fun _ => Returned (Response 200 (inr document))).

Definition foo_bar : gmap string string :=
  {[ "id" := "fooBar"; "name" := "Foo" ]}.

(** GitHub answers 201 for the file on "main" and 404 everywhere else. *)
Definition created_on_main : network :=
  Network reachable one_entry
    (fun r =>
       if String.eqb (req_url r)
            "https://raw.githubusercontent.com/owner/repo/main/plugin.json"
       then Returned (Response 201 (inr foo_bar))
       else Returned (Response 404 (inl "Expecting value"))).

(** A record on GitHub, with a name. *)
Definition on_github : gmap string string :=
  {[ "id" := "fooBar"; "name" := "Foo"; "screenshot" := screenshot_url;
     "repo" := "https://github.com/owner/repo" ]}.

(** The same record without its name. *)
Definition on_github_unnamed : gmap string string :=
  {[ "id" := "fooBar"; "screenshot" := screenshot_url;
     "repo" := "https://github.com/owner/repo" ]}.

(** A monorepo plugin on a host of no supported family. *)
Definition on_unsupported_host : gmap string string :=
  {[ "id" := "fooBar"; "screenshot" := screenshot_url;
     "repo" := "https://git.example.org/owner/repo";
     "path" := "plugins/fooBar" ]}.

(** Remote documents. *)
Definition renamed : gmap string string :=
  {[ "id" := "fooBar"; "name" := "Something Else" ]}.

Definition baz_qux : gmap string string := {[ "id" := "bazQux" ]}.

Definition empty_id : gmap string string := {[ "id" := "" ]}.

(** A network that answers 405 to every HEAD, has lost the screenshot and
    every path, and serves [baz_qux] on "master" only. *)
Definition worst_case : network :=
  Network
    (fun r =>
       match req_method r with
       | HEAD => Returned (Response 405 tt)
       | GET =>
           if String.eqb (req_url r) screenshot_url
           then Returned (Response 404 tt)
           else Returned (Response 200 tt)
       end)
    (fun _ => Returned (Response 404 (inl "Expecting value")))
    (fun r =>
       if String.eqb (req_url r)
            "https://raw.githubusercontent.com/owner/repo/master/plugins/fooBar/plugin.json"
       then Returned (Response 200 (inr baz_qux))
       else Returned (Response 404 (inl "Expecting value"))).

(** A monorepo record with a malformed id and a name. *)
Definition worst_record : gmap string string :=
  {[ "id" := "foo_bar"; "name" := "Foo"; "screenshot" := screenshot_url;
     "repo" := "https://github.com/owner/repo"; "path" := "plugins/fooBar" ]}.

End Examples.

(** ** The script *)

Section Script.

(** [urllib.parse.urlparse] *)
Variable urlparse : string -> Url.parse_result.

(** [GITHUB_TOKEN = os.environ.get("GITHUB_TOKEN")] *)
Variable GITHUB_TOKEN : option string.

Variable net : network.

(** [requests.head(url, timeout=timeout, allow_redirects=True)] *)
Definition requests_head (url : string) (timeout : Z) : IO (outcome unit) :=
  let r := Request HEAD url [] timeout true false in
  (reach net r, [Sent r]).

(** [requests.get(url, timeout=timeout, stream=True, allow_redirects=True)] *)
Definition requests_get_stream (url : string) (timeout : Z)
  : IO (outcome unit) :=
  let r := Request GET url [] timeout true true in
  (reach net r, [Sent r]).

(** [requests.get(api_url, timeout=10, headers=headers)] *)
Definition requests_get_listing (url : string)
    (headers : list (string * string))
  : IO (outcome (string + json_value)) :=
  let r := Request GET url headers 10 true false in
  (listing net r, [Sent r]).

(** [requests.get(raw_url, timeout=10, headers=headers)] *)
Definition requests_get_raw (url : string) (headers : list (string * string))
  : IO (outcome (string + gmap string string)) :=
  let r := Request GET url headers 10 true false in
  (raw_file net r, [Sent r]).

(** The three [except] clauses of [validate_url], in their order. *)
Definition validate_url_except (e : request_exception) : bool * string :=
  match e with
  | Timeout _ => (false, "Request timeout")
  | ConnectionError _ => (false, "Connection error")
  | OtherRequestException _ => (false, Http.str e)
  end.

Definition validate_url (url : string) (timeout : Z) : IO (bool * string) :=
  let* r := requests_head url timeout in
  match r with
  | Raised e => ret (validate_url_except e)
  | Returned response =>
      let* r :=
        if status_code response =? 405
        then requests_get_stream url timeout
        else ret (Returned response) in
      match r with
      | Raised e => ret (validate_url_except e)
      | Returned response =>
          if (200 <=? status_code response) && (status_code response <? 400)
          then ret (true, "")
          else ret (false, "HTTP " +:+ PyStr.of_int (status_code response))
      end
  end.

(** [owner/repo] out of a path like [/owner/repo] or [/owner/repo.git]:
    the list [path_parts] both functions below compute first. *)
Definition path_parts (parsed : Url.parse_result) : list string :=
  let repo_path := PyStr.strip "/" (Url.path parsed) in
  let repo_path :=
    if PyStr.endswith repo_path ".git" then PyStr.drop_last 4 repo_path
    else repo_path in
  PyStr.split "/" repo_path.

(** Truth value of [GITHUB_TOKEN]. *)
Definition token_headers : list (string * string) :=
  match GITHUB_TOKEN with
  | Some token =>
      if PyStr.is_empty token then []
      else [("Authorization", "token " +:+ token)]
  | None => []
  end.

Definition validate_repo_path (repo_url path : string) : IO (bool * string) :=
  let parsed := urlparse repo_url in
  let path_parts := path_parts parsed in
  if (length path_parts <? 2)%nat then
    ret (false, "Invalid repository URL format")
  else
  let owner := nth 0 path_parts "" in
  let repo := nth 1 path_parts "" in
  let netloc := Url.netloc parsed in
  (* Determine hosting service and construct API URL *)
  let service : option (string * string) :=
    if String.eqb netloc "github.com" then
      Some ("https://api.github.com/repos/" +:+ owner +:+ "/" +:+ repo
              +:+ "/contents/" +:+ path,
            "GitHub")
    else if String.eqb netloc "gitlab.com" || PyStr.contains "gitlab" netloc
    then
      let project_path := owner +:+ "%2F" +:+ repo in
      let base_url := "https://" +:+ netloc in
      Some (base_url +:+ "/api/v4/projects/" +:+ project_path
              +:+ "/repository/tree?path=" +:+ path,
            "GitLab")
    else if String.eqb netloc "codeberg.org" || PyStr.contains "gitea" netloc
            || PyStr.contains "forgejo" netloc
    then
      let base_url := "https://" +:+ netloc in
      Some (base_url +:+ "/api/v1/repos/" +:+ owner +:+ "/" +:+ repo
              +:+ "/contents/" +:+ path,
            "Gitea/Forgejo")
    else None in
  match service with
  | None =>
      (* Unknown hosting service - skip path validation with warning *)
      ret (true, "Warning: Path validation skipped for " +:+ netloc
                   +:+ " (unsupported hosting service)")
  | Some (api_url, service_name) =>
      let headers :=
        if String.eqb service_name "GitHub" then token_headers else [] in
      let* r := requests_get_listing api_url headers in
      match r with
      | Raised e => ret (false, "Failed to check path: " +:+ Http.str e)
      | Returned response =>
          if status_code response =? 200 then
            if String.eqb service_name "GitLab" then
              match json response with
              | inl msg =>
                  (* requests' JSONDecodeError is a RequestException *)
                  ret (false, "Failed to check path: " +:+ msg)
              | inr data =>
                  if is_empty_list data
                  then ret (false, "Path '" +:+ path
                                     +:+ "' not found in repository")
                  else ret (true, "")
              end
            else ret (true, "")
          else if status_code response =? 404 then
            ret (false, "Path '" +:+ path +:+ "' not found in repository")
          else
            ret (false, service_name +:+ " API returned HTTP "
                          +:+ PyStr.of_int (status_code response))
      end
  end.

(** The loop [for branch in ["main", "master"]] of [fetch_plugin_json],
    with the [return] that follows it. *)
Fixpoint fetch_from_branches (owner repo plugin_json_path : string)
    (headers : list (string * string)) (branches : list string)
  : IO (option (gmap string string) * string) :=
  match branches with
  | [] => ret (None, "plugin.json not found at " +:+ plugin_json_path)
  | branch :: branches =>
      let raw_url :=
        "https://raw.githubusercontent.com/" +:+ owner +:+ "/" +:+ repo
          +:+ "/" +:+ branch +:+ "/" +:+ plugin_json_path in
      let* r := requests_get_raw raw_url headers in
      match r with
      | Returned response =>
          if status_code response =? 200 then
            match json response with
            | inr plugin_data => ret (Some plugin_data, "")
            | inl e => ret (None, "Invalid JSON in plugin.json: " +:+ e)
            end
          else fetch_from_branches owner repo plugin_json_path headers branches
      | Raised _ =>
          fetch_from_branches owner repo plugin_json_path headers branches
      end
  end.

Definition fetch_plugin_json (repo_url path : string)
  : IO (option (gmap string string) * string) :=
  let parsed := urlparse repo_url in
  let path_parts := path_parts parsed in
  if (length path_parts <? 2)%nat then
    ret (None, "Invalid repository URL format")
  else
  let owner := nth 0 path_parts "" in
  let repo := nth 1 path_parts "" in
  let netloc := Url.netloc parsed in
  (* Construct the path to plugin.json *)
  let plugin_json_path :=
    if PyStr.is_empty path then "plugin.json" else path +:+ "/plugin.json" in
  let fetch (raw_url : string) :=
    let* r := requests_get_raw raw_url [] in
    match r with
    | Raised e => ret (None, "Failed to fetch plugin.json: " +:+ Http.str e)
    | Returned response =>
        if status_code response =? 200 then
          match json response with
          | inr plugin_data => ret (Some plugin_data, "")
          | inl e => ret (None, "Invalid JSON in plugin.json: " +:+ e)
          end
        else if status_code response =? 404 then
          ret (None, "plugin.json not found at " +:+ plugin_json_path)
        else
          ret (None, "Failed to fetch plugin.json: HTTP "
                       +:+ PyStr.of_int (status_code response))
    end in
  if String.eqb netloc "github.com" then
    (* Try common default branch names *)
    fetch_from_branches owner repo plugin_json_path token_headers
      ["main"; "master"]
  else if String.eqb netloc "gitlab.com" || PyStr.contains "gitlab" netloc
  then
    let project_path := owner +:+ "/" +:+ repo in
    fetch ("https://" +:+ netloc +:+ "/" +:+ project_path
             +:+ "/-/raw/HEAD/" +:+ plugin_json_path)
  else if String.eqb netloc "codeberg.org" || PyStr.contains "gitea" netloc
          || PyStr.contains "forgejo" netloc
  then
    fetch ("https://" +:+ netloc +:+ "/" +:+ owner +:+ "/" +:+ repo
             +:+ "/raw/branch/HEAD/" +:+ plugin_json_path)
  else
    ret (None, "Unsupported hosting service: " +:+ netloc).

Definition validate_plugin (plugin_file : plugin_file) : IO (list string) :=
  let errors : list string := [] in
  match content plugin_file with
  | NotJson e => ret ["Invalid JSON: " +:+ e]
  | Unreadable e => ret ["Failed to read file: " +:+ e]
  | Json plugin =>
  let plugin_name := default (stem plugin_file) (plugin !! "name") in
  (* Validate id field *)
  let errors :=
    match plugin !! "id" with
    | None => errors ++ ["Missing required 'id' property"]
    | Some plugin_id =>
        if PyStr.is_empty plugin_id then errors ++ ["ID is empty"]
        else if negb (is_camel_case plugin_id) then
          errors ++ ["ID '" +:+ plugin_id +:+ "' is not in camelCase format (must start with lowercase letter and contain only letters/digits)"]
        else errors
    end in
  (* Validate screenshot *)
  let* errors :=
    match plugin !! "screenshot" with
    | None => ret (errors ++ ["Missing required 'screenshot' property"])
    | Some screenshot_url =>
        if PyStr.is_empty screenshot_url then
          ret (errors ++ ["Screenshot URL is empty"])
        else
          let* '(is_valid, error_msg) := validate_url screenshot_url 10 in
          if negb is_valid then
            ret (errors ++ ["Screenshot URL unreachable: " +:+ error_msg])
          else ret errors
    end in
  (* Validate repo *)
  let* errors :=
    match plugin !! "repo" with
    | None => ret (errors ++ ["Missing required 'repo' property"])
    | Some repo_url =>
        if PyStr.is_empty repo_url then
          ret (errors ++ ["Repository URL is empty"])
        else
          let* '(is_valid, error_msg) := validate_url repo_url 10 in
          if negb is_valid then
            ret (errors ++ ["Repository URL unreachable: " +:+ error_msg])
          else
            (* Validate path if present *)
            let* errors :=
              match plugin !! "path" with
              | Some path =>
                  if PyStr.is_empty path then ret errors
                  else
                    let* '(is_valid, error_msg) :=
                      validate_repo_path repo_url path in
                    if negb is_valid then
                      ret (errors ++ ["Path validation failed: " +:+ error_msg])
                    else if negb (PyStr.is_empty error_msg) then
                      (* Warning message (unsupported service) *)
                      print_end (" " +:+ YELLOW +:+ "(" +:+ error_msg +:+ ")"
                                   +:+ RESET) "";;
                      ret errors
                    else ret errors
              | None => ret errors
              end in
            (* Validate plugin name and id match repository plugin.json *)
            let* '(repo_plugin_data, error_msg) :=
              fetch_plugin_json repo_url (default "" (plugin !! "path")) in
            match repo_plugin_data with
            | None =>
                ret (errors ++ ["Failed to fetch repository plugin.json: "
                                  +:+ error_msg])
            | Some repo_plugin_data =>
                (* Validate name match *)
                let errors :=
                  match plugin !! "name" with
                  | Some _ =>
                      match repo_plugin_data !! "name" with
                      | None =>
                          errors ++ ["Repository plugin.json is missing 'name' field"]
                      | Some repo_plugin_name =>
                          if PyStr.is_empty repo_plugin_name then
                            errors ++ ["Repository plugin.json is missing 'name' field"]
                          else if negb (String.eqb repo_plugin_name plugin_name)
                          then
                            errors ++ ["Name mismatch: registry has '"
                              +:+ plugin_name
                              +:+ "' but repository plugin.json has '"
                              +:+ repo_plugin_name +:+ "'"]
                          else errors
                      end
                  | None => errors
                  end in
                (* Validate id match *)
                let errors :=
                  match plugin !! "id" with
                  | Some plugin_id =>
                      match repo_plugin_data !! "id" with
                      | None =>
                          errors ++ ["Repository plugin.json is missing 'id' field"]
                      | Some repo_plugin_id =>
                          if PyStr.is_empty repo_plugin_id then
                            errors ++ ["Repository plugin.json is missing 'id' field"]
                          else if negb (String.eqb repo_plugin_id plugin_id)
                          then
                            errors ++ ["ID mismatch: registry has '"
                              +:+ plugin_id
                              +:+ "' but repository plugin.json has '"
                              +:+ repo_plugin_id +:+ "'"]
                          else errors
                      end
                  | None => errors
                  end in
                ret errors
            end
    end in
  ret errors
  end.

(** [plugins_dir.glob("*.json")] over the entries of the directory. *)
Definition glob_json (entries : list plugin_file) : list plugin_file :=
  List.filter (fun f => PyStr.endswith (name f) ".json") entries.

(** [sorted(plugin_files)]: paths of one directory compare by name;
    the sort is stable. *)
Fixpoint insert_sorted (f : plugin_file) (l : list plugin_file)
  : list plugin_file :=
  match l with
  | [] => [f]
  | g :: l' =>
      if String.ltb (name g) (name f) then g :: insert_sorted f l'
      else f :: l
  end.

Definition sorted (l : list plugin_file) : list plugin_file :=
  foldr insert_sorted [] l.

(** [all_errors[key] = value] on an insertion-ordered dict. *)
Fixpoint dict_set (d : list (string * list string)) (key : string)
    (value : list string) : list (string * list string) :=
  match d with
  | [] => [(key, value)]
  | (k, v) :: d' =>
      if String.eqb k key then (k, value) :: d'
      else (k, v) :: dict_set d' key value
  end.

(** The loop [for plugin_file in sorted(plugin_files)] of [main]. *)
Fixpoint validate_all (plugin_files : list plugin_file)
    (all_errors : list (string * list string))
  : IO (list (string * list string)) :=
  match plugin_files with
  | [] => ret all_errors
  | plugin_file :: plugin_files =>
      print_end ("Checking " +:+ name plugin_file +:+ "...") " ";;
      let* errors := validate_plugin plugin_file in
      let* all_errors :=
        match errors with
        | _ :: _ =>
            print (RED +:+ "FAILED" +:+ RESET);;
            ret (dict_set all_errors (name plugin_file) errors)
        | [] =>
            print (GREEN +:+ "OK" +:+ RESET);;
            ret all_errors
        end in
      validate_all plugin_files all_errors
  end.

(** The loops that print the summary of the failures. *)
Fixpoint print_errors (errors : list string) : IO unit :=
  match errors with
  | [] => ret tt
  | error :: errors => print ("  - " +:+ error);; print_errors errors
  end.

Fixpoint print_failures (items : list (string * list string)) : IO unit :=
  match items with
  | [] => ret tt
  | (filename, errors) :: items =>
      print (RED +:+ "✗ " +:+ filename +:+ RESET);;
      print_errors errors;;
      print "";;
      print_failures items
  end.

(** [main], from the state of [plugins/]: [None] when the directory does
    not exist, else its entries.  The result is the argument of
    [sys.exit]. *)
Definition main (plugins_dir : option (list plugin_file)) : IO Z :=
  match plugins_dir with
  | None =>
      print (RED +:+ "Error: plugins/ directory not found" +:+ RESET);;
      ret 1
  | Some entries =>
      let plugin_files := glob_json entries in
      match plugin_files with
      | [] =>
          print (YELLOW +:+ "Warning: No plugin files found in plugins/"
                   +:+ RESET);;
          ret 0
      | _ :: _ =>
          print ("Validating " +:+ PyStr.of_int (Z.of_nat (length plugin_files))
                   +:+ " plugin(s)..." +:+ String PyStr.LF "");;
          let* all_errors := validate_all (sorted plugin_files) [] in
          (* Print summary *)
          print "";;
          match all_errors with
          | _ :: _ =>
              print (RED +:+ "Validation failed for "
                       +:+ PyStr.of_int (Z.of_nat (length all_errors))
                       +:+ " plugin(s):" +:+ RESET +:+ String PyStr.LF "");;
              print_failures all_errors;;
              ret 1
          | [] =>
              print (GREEN +:+ "✓ All plugins validated successfully!"
                       +:+ RESET);;
              ret 0
          end
      end
  end.

(** *** The checks of [validate_plugin], one at a time

    The errors each check of [validate_plugin] adds, as functions of the
    record; [validate_plugin_checks] below shows that the error list of
    [validate_plugin] is their concatenation. *)

Definition id_check (plugin : gmap string string) : list string :=
  match plugin !! "id" with
  | None => ["Missing required 'id' property"]
  | Some plugin_id =>
      if PyStr.is_empty plugin_id then ["ID is empty"]
      else if is_camel_case plugin_id then []
      else ["ID '" +:+ plugin_id +:+ "' is not in camelCase format (must start with lowercase letter and contain only letters/digits)"]
  end.

Definition screenshot_check (plugin : gmap string string) : IO (list string) :=
  match plugin !! "screenshot" with
  | None => ret ["Missing required 'screenshot' property"]
  | Some screenshot_url =>
      if PyStr.is_empty screenshot_url then ret ["Screenshot URL is empty"]
      else
        let* r := validate_url screenshot_url 10 in
        ret (if fst r then []
             else ["Screenshot URL unreachable: " +:+ snd r])
  end.

Definition path_check (repo_url : string) (plugin : gmap string string)
  : IO (list string) :=
  match plugin !! "path" with
  | None => ret []
  | Some path =>
      if PyStr.is_empty path then ret []
      else
        let* r := validate_repo_path repo_url path in
        if negb (fst r) then ret ["Path validation failed: " +:+ snd r]
        else if PyStr.is_empty (snd r) then ret []
        else
          print_end (" " +:+ YELLOW +:+ "(" +:+ snd r +:+ ")" +:+ RESET) "";;
          ret []
  end.

Definition name_match (plugin repo_plugin_data : gmap string string)
  : list string :=
  match plugin !! "name" with
  | None => []
  | Some plugin_name =>
      match repo_plugin_data !! "name" with
      | None => ["Repository plugin.json is missing 'name' field"]
      | Some repo_plugin_name =>
          if PyStr.is_empty repo_plugin_name then
            ["Repository plugin.json is missing 'name' field"]
          else if String.eqb repo_plugin_name plugin_name then []
          else ["Name mismatch: registry has '" +:+ plugin_name
                  +:+ "' but repository plugin.json has '"
                  +:+ repo_plugin_name +:+ "'"]
      end
  end.

Definition id_match (plugin repo_plugin_data : gmap string string)
  : list string :=
  match plugin !! "id" with
  | None => []
  | Some plugin_id =>
      match repo_plugin_data !! "id" with
      | None => ["Repository plugin.json is missing 'id' field"]
      | Some repo_plugin_id =>
          if PyStr.is_empty repo_plugin_id then
            ["Repository plugin.json is missing 'id' field"]
          else if String.eqb repo_plugin_id plugin_id then []
          else ["ID mismatch: registry has '" +:+ plugin_id
                  +:+ "' but repository plugin.json has '"
                  +:+ repo_plugin_id +:+ "'"]
      end
  end.

(** The cross-check against the repository's [plugin.json]. *)
Definition cross_check (repo_url : string) (plugin : gmap string string)
  : IO (list string) :=
  let* r := fetch_plugin_json repo_url (default "" (plugin !! "path")) in
  match fst r with
  | None => ret ["Failed to fetch repository plugin.json: " +:+ snd r]
  | Some repo_plugin_data =>
      ret (name_match plugin repo_plugin_data
             ++ id_match plugin repo_plugin_data)
  end.

Definition repo_check (plugin : gmap string string) : IO (list string) :=
  match plugin !! "repo" with
  | None => ret ["Missing required 'repo' property"]
  | Some repo_url =>
      if PyStr.is_empty repo_url then ret ["Repository URL is empty"]
      else
        let* r := validate_url repo_url 10 in
        if fst r then
          let* p := path_check repo_url plugin in
          let* c := cross_check repo_url plugin in
          ret (p ++ c)
        else ret ["Repository URL unreachable: " +:+ snd r]
  end.

(** *** Vocabulary of the statements *)

(** The number of entries of an error list that satisfy [p]. *)
Definition count (p : string -> bool) (errors : list string) : nat :=
  length (List.filter p errors).

(** [e] starts with [prefix]. *)
Definition has_prefix (prefix e : string) : bool := PyStr.startswith e prefix.

(** The entry reported for a required key that is absent. *)
Definition missing_entry (key : string) : string :=
  "Missing required '" +:+ key +:+ "' property".

(** 1 when [key] is absent from the record, else 0. *)
Definition absent (plugin : gmap string string) (key : string) : nat :=
  match plugin !! key with None => 1 | Some _ => 0 end.

(** The two errors of the name cross-check. *)
Definition is_name_error (e : string) : bool :=
  String.eqb e "Repository plugin.json is missing 'name' field"
  || has_prefix "Name mismatch" e.

(** The domain belongs to one of the three hosting families the script
    knows: the tests both [validate_repo_path] and [fetch_plugin_json]
    make on [parsed.netloc]. *)
Definition supported_host (netloc : string) : bool :=
  String.eqb netloc "github.com"
  || (String.eqb netloc "gitlab.com" || PyStr.contains "gitlab" netloc)
  || (String.eqb netloc "codeberg.org" || PyStr.contains "gitea" netloc
      || PyStr.contains "forgejo" netloc).

(** The probes of [validate_url]. *)
Definition head_request (url : string) (timeout : Z) : request :=
  Request HEAD url [] timeout true false.

Definition get_request (url : string) (timeout : Z) : request :=
  Request GET url [] timeout true true.

(** The answer [validate_url] judges: the one to HEAD, or the one to GET
    when HEAD was answered with 405. *)
Definition final_outcome (url : string) (timeout : Z) : outcome unit :=
  match reach net (head_request url timeout) with
  | Returned response =>
      if status_code response =? 405 then reach net (get_request url timeout)
      else Returned response
  | Raised e => Raised e
  end.

(** The request for the raw [plugin.json] of a GitHub repository on
    [branch]. *)
Definition github_raw_request (owner repo branch plugin_json_path : string)
  : request :=
  Request GET
    ("https://raw.githubusercontent.com/" +:+ owner +:+ "/" +:+ repo
       +:+ "/" +:+ branch +:+ "/" +:+ plugin_json_path)
    token_headers 10 true false.

(** What a response with status 200 yields once its body is decoded. *)
Definition decoded (response : Http.response (string + gmap string string))
  : option (gmap string string) * string :=
  match json response with
  | inr plugin_data => (Some plugin_data, "")
  | inl e => (None, "Invalid JSON in plugin.json: " +:+ e)
  end.

(** The answer has status 405. *)
Definition is_405 {J} (o : outcome J) : bool :=
  match o with
  | Returned response => status_code response =? 405
  | Raised _ => false
  end.

(** The answer has status 200. *)
Definition is_200 {J} (o : outcome J) : bool :=
  match o with
  | Returned response => status_code response =? 200
  | Raised _ => false
  end.

(** *** More vocabulary *)

(** The characters the docstring of [is_camel_case] rules out by name. *)
Definition separator (c : ascii) : bool :=
  Url.is_one_of ["_"; "-"; " "]%char c.

(** The requests of a trace, in order. *)
Fixpoint requests_of (trace : list event) : list request :=
  match trace with
  | [] => []
  | Sent r :: trace => r :: requests_of trace
  | Printed _ :: trace => requests_of trace
  end.

(** The GitLab test of [validate_repo_path], reached when the domain is not
    github.com. *)
Definition is_gitlab (netloc : string) : bool :=
  negb (String.eqb netloc "github.com")
  && (String.eqb netloc "gitlab.com" || PyStr.contains "gitlab" netloc).

(** How the script sends a request: with the 10 second timeout, following
    redirects, and with headers only for the two GitHub hosts, where they
    are the token header. *)
Definition disciplined (r : request) : Prop :=
  req_timeout r = 10 /\
  req_allow_redirects r = true /\
  (req_headers r = [] \/
   req_headers r = token_headers /\
   (has_prefix "https://api.github.com/" (req_url r) = true \/
    has_prefix "https://raw.githubusercontent.com/" (req_url r) = true)).

(** The entries the loop of [main] records: the files with errors, each
    with its name and its errors. *)
Definition failures (plugin_files : list plugin_file)
  : list (string * list string) :=
  flat_map
    (fun f =>
       match fst (validate_plugin f) with
       | [] => []
       | (_ :: _) as errors => [(name f, errors)]
       end)
    plugin_files.

(** [s] holds no [c]. *)
Definition free_of (c : ascii) (s : string) : bool :=
  all_chars (fun a => negb (Ascii.eqb a c)) s.

(** ** Properties *)

Lemma append_empty_r (s : string) : s +:+ "" = s.
Proof.
  induction s as [|c s IH]; [reflexivity|].
  change (String c (s +:+ "") = String c s). f_equal. exact IH.
Qed.

Lemma bind_ret_l {A B} (a : A) (k : A -> IO B) : bind (ret a) k = k a.
Proof. unfold bind, ret. simpl. destruct (k a). reflexivity. Qed.

Lemma bind_pair {A B} (a : A) (t : list event) (k : A -> IO B) :
  bind (a, t) k = (fst (k a), t ++ snd (k a)).
Proof. reflexivity. Qed.

Lemma bind_assoc {A B C} (m : IO A) (f : A -> IO B) (g : B -> IO C) :
  bind (bind m f) g = bind m (fun a => bind (f a) g).
Proof. unfold bind. simpl. rewrite app_assoc. reflexivity. Qed.

Lemma bind_ret_r {A} (m : IO A) : bind m ret = m.
Proof. destruct m. unfold bind, ret. simpl. rewrite app_nil_r. reflexivity. Qed.

Ltac io_norm :=
  repeat first
    [ rewrite bind_ret_l | rewrite bind_ret_r | rewrite bind_assoc
    | rewrite app_nil_r | rewrite app_nil_l | rewrite <- app_assoc ].

Lemma bind_cong {A B} (m : IO A) (k k' : A -> IO B) :
  (forall a, k a = k' a) -> bind m k = bind m k'.
Proof. intros H. unfold bind. rewrite H. reflexivity. Qed.

Ltac io_auto :=
  io_norm; try reflexivity; try (apply bind_cong; intro; io_auto).

Lemma validate_plugin_checks (n : string) (plugin : gmap string string) :
  validate_plugin (PluginFile n (Json plugin)) =
  (let* s := screenshot_check plugin in
   let* r := repo_check plugin in
   ret (id_check plugin ++ s ++ r)).
Proof.
  unfold validate_plugin. cbn [content].
  match goal with |- bind _ ?K = _ => set (k := K) end.
  assert (Hk : forall errors,
             k errors = bind (repo_check plugin) (fun r => ret (errors ++ r))).
  { intros errors. subst k. cbv beta. unfold repo_check.
    destruct (plugin !! "repo") as [r|]; [|io_auto].
    destruct (PyStr.is_empty r); [io_auto|].
    io_norm. apply bind_cong. intros [[] m]; cbn [fst snd negb];
      [|io_auto].
    match goal with |- bind _ ?K = _ => set (k := K) end.
    assert (Hk : forall errors0,
               k errors0 =
               bind (cross_check r plugin) (fun c => ret (errors0 ++ c))).
    { intros errors0. subst k. cbv beta. unfold cross_check.
      io_norm. apply bind_cong. intros [[d|] m']; cbn [fst snd];
        [|io_auto].
      io_norm. unfold name_match, id_match.
      destruct (plugin !! "name") as [nm|]; cbn [default from_option];
        unfold id; destruct (plugin !! "id") as [i|];
        try destruct (d !! "name") as [rn|];
        try destruct (PyStr.is_empty rn);
        try destruct (String.eqb rn nm);
        try destruct (d !! "id") as [ri|];
        try destruct (PyStr.is_empty ri);
        try destruct (String.eqb ri i);
        cbn [negb app]; io_auto. }
    clearbody k. unfold path_check.
    destruct (plugin !! "path") as [pa|]; [|io_norm; rewrite Hk; io_auto].
    destruct (PyStr.is_empty pa); [io_norm; rewrite Hk; io_auto|].
    io_norm. apply bind_cong. intros [[] m']; cbn [fst snd negb];
      [|io_norm; rewrite Hk; io_auto].
    destruct (PyStr.is_empty m'); cbn [negb]; io_norm; rewrite Hk; io_auto. }
  clearbody k.
  match goal with
  | |- context [?e ++ ["Missing required 'screenshot' property"]] =>
      assert (He : e = id_check plugin)
  end.
  { unfold id_check. destruct (plugin !! "id") as [i|]; [|reflexivity].
    destruct (PyStr.is_empty i); [reflexivity|].
    destruct (is_camel_case i); reflexivity. }
  rewrite He. generalize (id_check plugin). intros errors.
  unfold screenshot_check.
  destruct (plugin !! "screenshot") as [s|]; [|io_norm; rewrite Hk; io_auto].
  destruct (PyStr.is_empty s); [io_norm; rewrite Hk; io_auto|].
  io_norm. apply bind_cong. intros [[] m]; cbn [fst snd negb]; io_norm;
    rewrite Hk; io_auto.
Qed.

(** *** [is_camel_case] *)

Lemma lower_alnum (c : ascii) : lower c = true -> alnum c = true.
Proof. unfold alnum. intros ->. reflexivity. Qed.

(** What [[a-zA-Z0-9]*$] accepts: letters and digits up to the end of the
    string, or up to a final newline. *)
Lemma star_alnum_eol (s : string) (pos : nat) :
  Re.star alnum pos s (fun pos' s' => Re.run Re.Eol pos' s' (fun _ _ => true))
    = true <->
  all_chars alnum s = true \/
  exists body, s = body +:+ newline /\ all_chars alnum body = true.
Proof.
  revert pos. induction s as [|c s IH]; intros pos; simpl.
  - split; [auto | reflexivity].
  - rewrite orb_true_iff, andb_true_iff, IH. split.
    + intros [[Hc [Hs | (body & -> & Hb)]] | Hend].
      * left. rewrite Hc, Hs. reflexivity.
      * right. exists (String c body). simpl. rewrite Hc, Hb. auto.
      * right. exists "". destruct s; [|discriminate].
        rewrite andb_true_r in Hend. apply Ascii.eqb_eq in Hend. subst c. auto.
    + intros [H | (body & Hs & Hb)].
      * apply andb_true_iff in H as [Hc Hs]. auto.
      * destruct body as [|b body]; simpl in Hs.
        -- injection Hs as -> ->. right. reflexivity.
        -- injection Hs as -> ->. simpl in Hb.
           apply andb_true_iff in Hb as [Hc Hb]. left. split; [exact Hc|].
           right. exists body. auto.
Qed.

(** The strings [is_camel_case] accepts, exactly: a lowercase letter, then
    letters and digits, then nothing or one newline. *)
Theorem is_camel_case_accepts (s : string) :
  is_camel_case s = true <->
  exists c body,
    lower c = true /\ all_chars alnum body = true /\
    (s = String c body \/ s = String c body +:+ newline).
Proof.
  destruct s as [|c s].
  - split; [discriminate | intros (c & body & _ & _ & [H | H]); discriminate].
  - unfold is_camel_case, Re.matches, camel_case_pattern.
    cbn [PyStr.is_empty Re.run Nat.eqb andb].
    rewrite andb_true_iff, star_alnum_eol. split.
    + intros [Hc [Hs | (body & -> & Hb)]]; exists c; eauto 6.
    + intros (c' & body & Hc & Hb & [H | H]); simpl in H; injection H as -> ->;
        auto.
      split; [exact Hc|]. right. eauto.
Qed.

(** X1: every string that follows the documented rule is accepted. *)
Theorem is_camel_case_of_rule (s : string) :
  camel_case_rule s -> is_camel_case s = true.
Proof.
  intros (_ & (c & rest & -> & Hc) & Hall). apply is_camel_case_accepts.
  simpl in Hall. apply andb_true_iff in Hall as [_ Hall]. eauto 6.
Qed.

(** X2: an accepted string follows the rule, or is a string that follows
    the rule with one newline after it. *)
Theorem is_camel_case_rule_or_newline (s : string) :
  is_camel_case s = true ->
  camel_case_rule s \/
  exists s', s = s' +:+ newline /\ camel_case_rule s'.
Proof.
  intros H. apply is_camel_case_accepts in H as (c & body & Hc & Hb & Hs).
  assert (Hrule : camel_case_rule (String c body)).
  { split; [discriminate|]. split; [eauto|].
    simpl. rewrite (lower_alnum c Hc), Hb. reflexivity. }
  destruct Hs as [-> | ->]; [left; exact Hrule | right; eauto].
Qed.

(** The four examples of the description. *)
Theorem is_camel_case_examples :
  is_camel_case "myPlugin2" = true /\ is_camel_case "MyPlugin" = false /\
  is_camel_case "my-plugin" = false /\ is_camel_case "" = false.
Proof. repeat split. Qed.

(** C1, at the input where the code leaves its rule: [$] also matches
    before a final newline, so an id that is "myPlugin" followed by a
    newline is accepted although its last character is neither a letter
    nor a digit. *)
Theorem is_camel_case_trailing_newline :
  is_camel_case ("myPlugin" +:+ newline) = true /\
  ~ camel_case_rule ("myPlugin" +:+ newline).
Proof.
  split; [reflexivity|]. intros (_ & _ & H). discriminate H.
Qed.

(** *** [validate_url] *)

Lemma validate_url_eq (url : string) (timeout : Z) :
  validate_url url timeout =
  (match final_outcome url timeout with
   | Returned response =>
       if (200 <=? status_code response) && (status_code response <? 400)
       then (true, "")
       else (false, "HTTP " +:+ PyStr.of_int (status_code response))
   | Raised e => validate_url_except e
   end,
   Sent (head_request url timeout) ::
   (if is_405 (reach net (head_request url timeout))
    then [Sent (get_request url timeout)] else [])).
Proof.
  unfold validate_url, final_outcome, requests_head, requests_get_stream,
    is_405. fold (head_request url timeout) (get_request url timeout).
  rewrite bind_pair.
  destruct (reach net (head_request url timeout)) as [r|e]; [|reflexivity].
  destruct (status_code r =? 405).
  - rewrite bind_pair.
    destruct (reach net (get_request url timeout)) as [r'|e']; [|reflexivity].
    destruct ((200 <=? status_code r') && (status_code r' <? 400));
      reflexivity.
  - rewrite bind_ret_l.
    destruct ((200 <=? status_code r) && (status_code r <? 400)); reflexivity.
Qed.

(** C8: [validate_url] sends a HEAD request for the URL, and a GET request
    after it exactly when HEAD was answered with status 405; both follow
    redirects.  It succeeds exactly when the last answer is a response
    with a status from 200 to 399.  A timeout gives "Request timeout", a
    connection failure "Connection error", a response outside the range
    "HTTP <status>", and these three messages are pairwise different. *)
Theorem validate_url_spec (url : string) (timeout : Z) :
  let result := fst (validate_url url timeout) in
  let sent := snd (validate_url url timeout) in
  sent = Sent (head_request url timeout) ::
         (if is_405 (reach net (head_request url timeout))
          then [Sent (get_request url timeout)] else []) /\
  req_method (head_request url timeout) = HEAD /\
  req_method (get_request url timeout) = GET /\
  Forall (fun ev => exists r, ev = Sent r /\ req_url r = url /\
                              req_allow_redirects r = true) sent /\
  (fst result = true <->
   exists response, final_outcome url timeout = Returned response /\
                    200 <= status_code response < 400) /\
  (fst result = true -> snd result = "") /\
  (forall response,
      final_outcome url timeout = Returned response ->
      ~ 200 <= status_code response < 400 ->
      result = (false, "HTTP " +:+ PyStr.of_int (status_code response))) /\
  (forall msg, final_outcome url timeout = Raised (Timeout msg) ->
               result = (false, "Request timeout")) /\
  (forall msg, final_outcome url timeout = Raised (ConnectionError msg) ->
               result = (false, "Connection error")) /\
  "Request timeout" <> "Connection error" /\
  (forall status : Z,
      "HTTP " +:+ PyStr.of_int status <> "Request timeout" /\
      "HTTP " +:+ PyStr.of_int status <> "Connection error").
Proof.
  cbv zeta. rewrite validate_url_eq. cbn [fst snd].
  split; [reflexivity|]. split; [reflexivity|]. split; [reflexivity|].
  split.
  { constructor; [eexists; repeat split|].
    destruct (is_405 _); [|constructor].
    constructor; [eexists; repeat split | constructor]. }
  assert (Hrange : forall z, (200 <=? z) && (z <? 400) = true <-> 200 <= z < 400).
  { intros z. rewrite andb_true_iff, Z.leb_le, Z.ltb_lt. reflexivity. }
  repeat split.
  - destruct (final_outcome url timeout) as [r|e].
    + destruct ((200 <=? status_code r) && (status_code r <? 400)) eqn:E;
        [|discriminate].
      intros _. exists r. split; [reflexivity|]. apply Hrange, E.
    + destruct e; discriminate.
  - intros (r & -> & Hr). apply Hrange in Hr. rewrite Hr. reflexivity.
  - destruct (final_outcome url timeout) as [r|e].
    + destruct ((200 <=? status_code r) && (status_code r <? 400));
        [reflexivity | discriminate].
    + destruct e; discriminate.
  - intros r -> Hr.
    destruct ((200 <=? status_code r) && (status_code r <? 400)) eqn:E;
      [|reflexivity].
    apply Hrange in E. contradiction.
  - intros msg ->. reflexivity.
  - intros msg ->. reflexivity.
  - discriminate.
  - discriminate.
  - discriminate.
Qed.

(** *** Repository URLs without an owner and a repository *)

(** C10: when the path of the repository URL, stripped of surrounding
    slashes and of a final ".git", splits into fewer than two segments,
    [validate_repo_path] and [fetch_plugin_json] both fail with "Invalid
    repository URL format" and send no request. *)
Theorem invalid_repository_url (repo_url path : string) :
  (length (path_parts (urlparse repo_url)) < 2)%nat ->
  validate_repo_path repo_url path =
    ((false, "Invalid repository URL format"), []) /\
  fetch_plugin_json repo_url path =
    ((None, "Invalid repository URL format"), []).
Proof.
  intros H. apply Nat.ltb_lt in H.
  unfold validate_repo_path, fetch_plugin_json. rewrite H. split; reflexivity.
Qed.

(** The segments are fewer than two exactly when the stripped path holds no
    slash. *)
Lemma split_length (c : ascii) (s : string) :
  length (PyStr.split c s) =
  S (length (List.filter (Ascii.eqb c) (list_ascii_of_string s))).
Proof.
  induction s as [|a s IH]; [reflexivity|].
  simpl. rewrite (Ascii.eqb_sym c a). destruct (Ascii.eqb a c).
  - simpl. rewrite IH. reflexivity.
  - destruct (PyStr.split c s); simpl in *; [discriminate IH | exact IH].
Qed.

(** *** [fetch_plugin_json] on GitHub *)

Lemma fetch_from_branches_two (owner repo plugin_json_path : string) :
  let main := github_raw_request owner repo "main" plugin_json_path in
  let master := github_raw_request owner repo "master" plugin_json_path in
  fetch_from_branches owner repo plugin_json_path token_headers
    ["main"; "master"] =
  match raw_file net main with
  | Returned response =>
      if status_code response =? 200 then (decoded response, [Sent main])
      else
        (match raw_file net master with
         | Returned response' =>
             if status_code response' =? 200 then decoded response'
             else (None, "plugin.json not found at " +:+ plugin_json_path)
         | Raised _ => (None, "plugin.json not found at " +:+ plugin_json_path)
         end, [Sent main; Sent master])
  | Raised _ =>
      (match raw_file net master with
       | Returned response' =>
           if status_code response' =? 200 then decoded response'
           else (None, "plugin.json not found at " +:+ plugin_json_path)
       | Raised _ => (None, "plugin.json not found at " +:+ plugin_json_path)
       end, [Sent main; Sent master])
  end.
Proof.
  cbv zeta. unfold fetch_from_branches, requests_get_raw, github_raw_request,
    decoded.
  rewrite bind_pair.
  set (main := Request GET _ token_headers 10 true false).
  assert (Hrest :
    forall k : outcome (string + gmap string string) ->
               IO (option (gmap string string) * string),
    forall master,
      bind (raw_file net master, [Sent master]) k =
      (fst (k (raw_file net master)), Sent master :: snd (k (raw_file net master)))).
  { reflexivity. }
  destruct (raw_file net main) as [r|e].
  - destruct (status_code r =? 200).
    + destruct (json r); reflexivity.
    + rewrite Hrest. cbn [fst snd app].
      match goal with |- context [raw_file net ?m] =>
        destruct (raw_file net m) as [r'|e'] end; [|reflexivity].
      destruct (status_code r' =? 200); [|reflexivity].
      destruct (json r'); reflexivity.
  - rewrite Hrest. cbn [fst snd app].
    match goal with |- context [raw_file net ?m] =>
      destruct (raw_file net m) as [r'|e'] end; [|reflexivity].
    destruct (status_code r' =? 200); [|reflexivity].
    destruct (json r'); reflexivity.
Qed.

(** C4, amended: for a github.com URL with an owner and a repository,
    [fetch_plugin_json] requests the raw [plugin.json] on branch "main"
    first; a response with status 200 is accepted and nothing more is
    sent.  Otherwise the same file is requested on "master", accepted when
    that response has status 200, and else the result is "plugin.json not
    found".  An accepted response whose body is not JSON gives an "Invalid
    JSON in plugin.json" error, which differs from the "not found" and the
    "Failed to fetch" errors. *)
Theorem github_fetch_tries_main_then_master (repo_url path : string) :
  Url.netloc (urlparse repo_url) = "github.com" ->
  (2 <= length (path_parts (urlparse repo_url)))%nat ->
  let owner := nth 0 (path_parts (urlparse repo_url)) "" in
  let repo := nth 1 (path_parts (urlparse repo_url)) "" in
  let plugin_json_path :=
    if PyStr.is_empty path then "plugin.json" else path +:+ "/plugin.json" in
  let main := github_raw_request owner repo "main" plugin_json_path in
  let master := github_raw_request owner repo "master" plugin_json_path in
  let not_found := (None, "plugin.json not found at " +:+ plugin_json_path) in
  (forall response,
      raw_file net main = Returned response -> status_code response = 200 ->
      fetch_plugin_json repo_url path = (decoded response, [Sent main])) /\
  (is_200 (raw_file net main) = false ->
   snd (fetch_plugin_json repo_url path) = [Sent main; Sent master] /\
   (forall response,
       raw_file net master = Returned response -> status_code response = 200 ->
       fst (fetch_plugin_json repo_url path) = decoded response) /\
   (is_200 (raw_file net master) = false ->
    fst (fetch_plugin_json repo_url path) = not_found)) /\
  (forall response e,
      json response = inl e ->
      decoded response = (None, "Invalid JSON in plugin.json: " +:+ e)) /\
  (forall e p x,
      "Invalid JSON in plugin.json: " +:+ e <> "plugin.json not found at " +:+ p /\
      "Invalid JSON in plugin.json: " +:+ e <> "Failed to fetch plugin.json: " +:+ x).
Proof.
  intros Hnet Hlen. cbv zeta.
  assert (Hf : fetch_plugin_json repo_url path =
               fetch_from_branches
                 (nth 0 (path_parts (urlparse repo_url)) "")
                 (nth 1 (path_parts (urlparse repo_url)) "")
                 (if PyStr.is_empty path then "plugin.json"
                  else path +:+ "/plugin.json")
                 token_headers ["main"; "master"]).
  { unfold fetch_plugin_json.
    destruct (length (path_parts (urlparse repo_url)) <? 2)%nat eqn:E.
    - apply Nat.ltb_lt in E. lia.
    - rewrite Hnet. reflexivity. }
  rewrite Hf, fetch_from_branches_two. cbv zeta.
  split; [|split; [|split]].
  - intros r -> Hr. apply Z.eqb_eq in Hr. rewrite Hr. reflexivity.
  - intros Hmain. unfold is_200 in Hmain.
    destruct (raw_file net (github_raw_request _ _ "main" _)) as [r|e];
      [rewrite Hmain|]; cbn [fst snd].
    all: split; [reflexivity|]; split.
    all: try (intros r' -> Hr; apply Z.eqb_eq in Hr; rewrite Hr; reflexivity).
    all: unfold is_200; intros Hmaster.
    all: destruct (raw_file net _) as [r'|e']; [|reflexivity].
    all: rewrite Hmaster; reflexivity.
  - intros r e He. unfold decoded. rewrite He. reflexivity.
  - intros e p0 x. split; discriminate.
Qed.

(** *** The error list of [validate_plugin], check by check *)

Lemma count_app (p : string -> bool) (l1 l2 : list string) :
  count p (l1 ++ l2) = (count p l1 + count p l2)%nat.
Proof. unfold count. rewrite List.filter_app, length_app. reflexivity. Qed.

Lemma count_none (p : string -> bool) (l : list string) :
  Forall (fun e => p e = false) l -> count p l = 0%nat.
Proof.
  unfold count. induction 1 as [|e l He _ IH]; [reflexivity|].
  simpl. rewrite He. exact IH.
Qed.

Lemma validate_plugin_errors (n : string) (plugin : gmap string string) :
  fst (validate_plugin (PluginFile n (Json plugin))) =
  id_check plugin ++ fst (screenshot_check plugin) ++ fst (repo_check plugin).
Proof. rewrite validate_plugin_checks. reflexivity. Qed.

Lemma validate_plugin_trace (n : string) (plugin : gmap string string) :
  snd (validate_plugin (PluginFile n (Json plugin))) =
  snd (screenshot_check plugin) ++ snd (repo_check plugin).
Proof.
  rewrite validate_plugin_checks. unfold bind, ret. cbn [fst snd].
  rewrite app_nil_r. reflexivity.
Qed.

Lemma id_check_Forall (Q : string -> Prop) (plugin : gmap string string) :
  (plugin !! "id" = None -> Q "Missing required 'id' property") ->
  Q "ID is empty" ->
  (forall i, Q ("ID '" +:+ i +:+ "' is not in camelCase format (must start with lowercase letter and contain only letters/digits)")) ->
  Forall Q (id_check plugin).
Proof.
  intros H1 H2 H3. unfold id_check.
  destruct (plugin !! "id") as [i|]; [|auto].
  destruct (PyStr.is_empty i); [auto|].
  destruct (is_camel_case i); auto.
Qed.

Lemma screenshot_check_Forall (Q : string -> Prop)
    (plugin : gmap string string) :
  (plugin !! "screenshot" = None ->
   Q "Missing required 'screenshot' property") ->
  Q "Screenshot URL is empty" ->
  (forall m, Q ("Screenshot URL unreachable: " +:+ m)) ->
  Forall Q (fst (screenshot_check plugin)).
Proof.
  intros H1 H2 H3. unfold screenshot_check.
  destruct (plugin !! "screenshot") as [u|]; [|cbn; auto].
  destruct (PyStr.is_empty u); [cbn; auto|].
  destruct (validate_url u 10) as [[[] m] t]; cbn; auto.
Qed.

Lemma path_check_Forall (Q : string -> Prop) (repo_url : string)
    (plugin : gmap string string) :
  (forall m, Q ("Path validation failed: " +:+ m)) ->
  Forall Q (fst (path_check repo_url plugin)).
Proof.
  intros H. unfold path_check.
  destruct (plugin !! "path") as [pa|]; [|cbn; auto].
  destruct (PyStr.is_empty pa); [cbn; auto|].
  destruct (validate_repo_path repo_url pa) as [[[] m] t]; cbn; auto.
  destruct (PyStr.is_empty m); cbn; auto.
Qed.

Lemma name_match_Forall (Q : string -> Prop)
    (plugin repo_plugin_data : gmap string string) :
  Q "Repository plugin.json is missing 'name' field" ->
  (forall a b, Q ("Name mismatch: registry has '" +:+ a
                    +:+ "' but repository plugin.json has '" +:+ b +:+ "'")) ->
  Forall Q (name_match plugin repo_plugin_data).
Proof.
  intros H1 H2. unfold name_match.
  destruct (plugin !! "name") as [nm|]; [|auto].
  destruct (repo_plugin_data !! "name") as [rn|]; [|auto].
  destruct (PyStr.is_empty rn); [auto|].
  destruct (String.eqb rn nm); auto.
Qed.

Lemma id_match_Forall (Q : string -> Prop)
    (plugin repo_plugin_data : gmap string string) :
  Q "Repository plugin.json is missing 'id' field" ->
  (forall a b, Q ("ID mismatch: registry has '" +:+ a
                    +:+ "' but repository plugin.json has '" +:+ b +:+ "'")) ->
  Forall Q (id_match plugin repo_plugin_data).
Proof.
  intros H1 H2. unfold id_match.
  destruct (plugin !! "id") as [i|]; [|auto].
  destruct (repo_plugin_data !! "id") as [ri|]; [|auto].
  destruct (PyStr.is_empty ri); [auto|].
  destruct (String.eqb ri i); auto.
Qed.

(** What the cross-check reports, from what [fetch_plugin_json] gave. *)
Lemma cross_check_errors (repo_url : string) (plugin : gmap string string) :
  fst (cross_check repo_url plugin) =
  match fst (fetch_plugin_json repo_url (default "" (plugin !! "path"))) with
  | (None, error_msg) =>
      ["Failed to fetch repository plugin.json: " +:+ error_msg]
  | (Some repo_plugin_data, _) =>
      name_match plugin repo_plugin_data ++ id_match plugin repo_plugin_data
  end.
Proof.
  unfold cross_check.
  destruct (fetch_plugin_json _ _) as [[[d|] m] t]; reflexivity.
Qed.

Lemma cross_check_trace (repo_url : string) (plugin : gmap string string) :
  snd (cross_check repo_url plugin) =
  snd (fetch_plugin_json repo_url (default "" (plugin !! "path"))).
Proof.
  unfold cross_check.
  destruct (fetch_plugin_json _ _) as [[[d|] m] t]; cbn; apply app_nil_r.
Qed.

Lemma cross_check_Forall (Q : string -> Prop) (repo_url : string)
    (plugin : gmap string string) :
  (forall m, Q ("Failed to fetch repository plugin.json: " +:+ m)) ->
  (forall d, Forall Q (name_match plugin d)) ->
  (forall d, Forall Q (id_match plugin d)) ->
  Forall Q (fst (cross_check repo_url plugin)).
Proof.
  intros H1 H2 H3. rewrite cross_check_errors.
  destruct (fst (fetch_plugin_json _ _)) as [[d|] m]; [|auto].
  apply Forall_app. auto.
Qed.

(** What the repository block reports, from what [validate_url] gave. *)
Lemma repo_check_reachable (plugin : gmap string string) (repo_url : string) :
  plugin !! "repo" = Some repo_url ->
  PyStr.is_empty repo_url = false ->
  fst (fst (validate_url repo_url 10)) = true ->
  fst (repo_check plugin) =
    fst (path_check repo_url plugin) ++ fst (cross_check repo_url plugin) /\
  snd (repo_check plugin) =
    snd (validate_url repo_url 10) ++ snd (path_check repo_url plugin)
      ++ snd (cross_check repo_url plugin).
Proof.
  intros Hr He Hv. unfold repo_check. rewrite Hr, He.
  unfold bind, ret. cbn [fst snd]. rewrite !Hv. cbn [fst snd].
  rewrite app_nil_r. auto.
Qed.

Lemma repo_check_unreachable (plugin : gmap string string)
    (repo_url : string) :
  plugin !! "repo" = Some repo_url ->
  PyStr.is_empty repo_url = false ->
  fst (fst (validate_url repo_url 10)) = false ->
  repo_check plugin =
    (["Repository URL unreachable: " +:+ snd (fst (validate_url repo_url 10))],
     snd (validate_url repo_url 10)).
Proof.
  intros Hr He Hv. unfold repo_check. rewrite Hr, He.
  unfold bind, ret. cbn [fst snd]. rewrite Hv. cbn [fst snd].
  rewrite app_nil_r. reflexivity.
Qed.

Lemma repo_check_Forall (Q : string -> Prop) (plugin : gmap string string) :
  (plugin !! "repo" = None -> Q "Missing required 'repo' property") ->
  Q "Repository URL is empty" ->
  (forall m, Q ("Repository URL unreachable: " +:+ m)) ->
  (forall m, Q ("Path validation failed: " +:+ m)) ->
  (forall m, Q ("Failed to fetch repository plugin.json: " +:+ m)) ->
  (forall d, Forall Q (name_match plugin d)) ->
  (forall d, Forall Q (id_match plugin d)) ->
  Forall Q (fst (repo_check plugin)).
Proof.
  intros H1 H2 H3 H4 H5 H6 H7.
  destruct (plugin !! "repo") as [r|] eqn:Hr.
  - destruct (PyStr.is_empty r) eqn:He.
    + unfold repo_check. rewrite Hr, He. cbn. auto.
    + destruct (fst (fst (validate_url r 10))) eqn:Hv.
      * destruct (repo_check_reachable plugin r Hr He Hv) as [-> _].
        apply Forall_app. split.
        -- apply path_check_Forall, H4.
        -- apply cross_check_Forall; assumption.
      * rewrite (repo_check_unreachable plugin r Hr He Hv). cbn. auto.
  - unfold repo_check. rewrite Hr. cbn. auto.
Qed.

(** *** Required keys *)

Lemma id_check_count (P : string -> bool) (b : bool)
    (plugin : gmap string string) :
  P "Missing required 'id' property" = b ->
  P "ID is empty" = false ->
  (forall i, P ("ID '" +:+ i +:+ "' is not in camelCase format (must start with lowercase letter and contain only letters/digits)") = false) ->
  count P (id_check plugin) = if b then absent plugin "id" else 0%nat.
Proof.
  intros H1 H2 H3. unfold absent.
  destruct (plugin !! "id") as [i|] eqn:Hi.
  - rewrite count_none; [destruct b; reflexivity|].
    apply id_check_Forall; auto. congruence.
  - unfold id_check. rewrite Hi. unfold count. cbn [List.filter].
    rewrite H1. destruct b; reflexivity.
Qed.

Lemma screenshot_check_count (P : string -> bool) (b : bool)
    (plugin : gmap string string) :
  P "Missing required 'screenshot' property" = b ->
  P "Screenshot URL is empty" = false ->
  (forall m, P ("Screenshot URL unreachable: " +:+ m) = false) ->
  count P (fst (screenshot_check plugin)) =
  if b then absent plugin "screenshot" else 0%nat.
Proof.
  intros H1 H2 H3. unfold absent.
  destruct (plugin !! "screenshot") as [u|] eqn:Hu.
  - rewrite count_none; [destruct b; reflexivity|].
    apply screenshot_check_Forall; auto. congruence.
  - unfold screenshot_check. rewrite Hu. unfold count.
    cbn [fst ret List.filter]. rewrite H1. destruct b; reflexivity.
Qed.

Lemma repo_check_count (P : string -> bool) (b : bool)
    (plugin : gmap string string) :
  P "Missing required 'repo' property" = b ->
  P "Repository URL is empty" = false ->
  (forall m, P ("Repository URL unreachable: " +:+ m) = false) ->
  (forall m, P ("Path validation failed: " +:+ m) = false) ->
  (forall m, P ("Failed to fetch repository plugin.json: " +:+ m) = false) ->
  P "Repository plugin.json is missing 'name' field" = false ->
  (forall x y, P ("Name mismatch: registry has '" +:+ x
                    +:+ "' but repository plugin.json has '" +:+ y +:+ "'")
               = false) ->
  P "Repository plugin.json is missing 'id' field" = false ->
  (forall x y, P ("ID mismatch: registry has '" +:+ x
                    +:+ "' but repository plugin.json has '" +:+ y +:+ "'")
               = false) ->
  count P (fst (repo_check plugin)) =
  if b then absent plugin "repo" else 0%nat.
Proof.
  intros H1 H2 H3 H4 H5 H6 H7 H8 H9. unfold absent.
  destruct (plugin !! "repo") as [u|] eqn:Hu.
  - rewrite count_none; [destruct b; reflexivity|].
    apply repo_check_Forall; auto; try congruence.
    + intros d. apply name_match_Forall; auto.
    + intros d. apply id_match_Forall; auto.
  - unfold repo_check. rewrite Hu. unfold count.
    cbn [fst ret List.filter]. rewrite H1. destruct b; reflexivity.
Qed.

(** A predicate on error entries that no entry other than the three
    "Missing required" ones satisfies; [b1], [b2], [b3] say which of the
    three it accepts. *)
Lemma validate_plugin_count_missing (P : string -> bool) (b1 b2 b3 : bool)
    (n : string) (plugin : gmap string string) :
  P "Missing required 'id' property" = b1 ->
  P "Missing required 'screenshot' property" = b2 ->
  P "Missing required 'repo' property" = b3 ->
  P "ID is empty" = false ->
  (forall i, P ("ID '" +:+ i +:+ "' is not in camelCase format (must start with lowercase letter and contain only letters/digits)") = false) ->
  P "Screenshot URL is empty" = false ->
  (forall m, P ("Screenshot URL unreachable: " +:+ m) = false) ->
  P "Repository URL is empty" = false ->
  (forall m, P ("Repository URL unreachable: " +:+ m) = false) ->
  (forall m, P ("Path validation failed: " +:+ m) = false) ->
  (forall m, P ("Failed to fetch repository plugin.json: " +:+ m) = false) ->
  P "Repository plugin.json is missing 'name' field" = false ->
  (forall x y, P ("Name mismatch: registry has '" +:+ x
                    +:+ "' but repository plugin.json has '" +:+ y +:+ "'")
               = false) ->
  P "Repository plugin.json is missing 'id' field" = false ->
  (forall x y, P ("ID mismatch: registry has '" +:+ x
                    +:+ "' but repository plugin.json has '" +:+ y +:+ "'")
               = false) ->
  count P (fst (validate_plugin (PluginFile n (Json plugin)))) =
  ((if b1 then absent plugin "id" else 0)
   + (if b2 then absent plugin "screenshot" else 0)
   + (if b3 then absent plugin "repo" else 0))%nat.
Proof.
  intros. rewrite validate_plugin_errors, !count_app.
  rewrite (id_check_count P b1), (screenshot_check_count P b2),
    (repo_check_count P b3) by assumption.
  lia.
Qed.

(** C9: in the error list of a plugin record, the entry "Missing required
    '<key>' property" occurs once when <key> is absent from the record and
    not at all when it is present, for each of id, screenshot and repo,
    whatever the other fields hold and whatever the network answers; and
    the entries that start with "Missing required" are as many as the
    absent keys. *)
Theorem missing_required_entries (n : string) (plugin : gmap string string) :
  let errors := fst (validate_plugin (PluginFile n (Json plugin))) in
  count (String.eqb (missing_entry "id")) errors = absent plugin "id" /\
  count (String.eqb (missing_entry "screenshot")) errors
    = absent plugin "screenshot" /\
  count (String.eqb (missing_entry "repo")) errors = absent plugin "repo" /\
  count (has_prefix "Missing required") errors
    = (absent plugin "id" + absent plugin "screenshot"
       + absent plugin "repo")%nat.
Proof.
  cbv zeta. repeat split.
  - rewrite (validate_plugin_count_missing _ true false false);
      try reflexivity; try (intros; reflexivity); lia.
  - rewrite (validate_plugin_count_missing _ false true false);
      try reflexivity; try (intros; reflexivity); lia.
  - rewrite (validate_plugin_count_missing _ false false true);
      try reflexivity; try (intros; reflexivity); lia.
  - rewrite (validate_plugin_count_missing _ true true true);
      try reflexivity; try (intros; reflexivity); lia.
Qed.

(** *** Which checks run *)

(** The screenshot check, from what [validate_url] gave. *)
Lemma screenshot_check_probed (plugin : gmap string string)
    (screenshot_url : string) :
  plugin !! "screenshot" = Some screenshot_url ->
  PyStr.is_empty screenshot_url = false ->
  screenshot_check plugin =
  (if fst (fst (validate_url screenshot_url 10)) then []
   else ["Screenshot URL unreachable: "
           +:+ snd (fst (validate_url screenshot_url 10))],
   snd (validate_url screenshot_url 10)).
Proof.
  intros Hs Hse. unfold screenshot_check. rewrite Hs, Hse. unfold bind, ret.
  cbn [fst snd]. rewrite app_nil_r. reflexivity.
Qed.

(** The path check calls [validate_repo_path] when the record has a
    non-empty path, and only reports its failure. *)
Lemma path_check_runs (repo_url path : string) (plugin : gmap string string) :
  plugin !! "path" = Some path ->
  PyStr.is_empty path = false ->
  fst (path_check repo_url plugin) =
    (if fst (fst (validate_repo_path repo_url path)) then []
     else ["Path validation failed: "
             +:+ snd (fst (validate_repo_path repo_url path))]) /\
  exists printed,
    snd (path_check repo_url plugin) =
    snd (validate_repo_path repo_url path) ++ printed.
Proof.
  intros Hp He. unfold path_check. rewrite Hp, He.
  destruct (validate_repo_path repo_url path) as [[[] m] t];
    rewrite bind_pair; cbn [fst snd negb].
  - destruct (PyStr.is_empty m); cbn; eauto.
  - cbn; eauto.
Qed.

(** C5: the error list of a plugin record is made of the errors of the id
    check, then those of the screenshot check, then those of the
    repository block, and the requests sent are those of the screenshot
    check followed by those of the repository block: what the screenshot
    check finds changes nothing in the other two.  An unreachable
    screenshot adds its error.  When the repository URL is reachable, the
    repository block is the path check followed by the cross-check, each
    sending its requests whatever the other checks found: the path check
    calls [validate_repo_path] when the record has a path, and the
    cross-check calls [fetch_plugin_json] and reports the fetch error, or
    else the name errors followed by the id errors.  When the repository
    URL is unreachable, the block is that one error and nothing is sent
    after the probe. *)
Theorem failures_accumulate (n : string) (plugin : gmap string string) :
  let errors := fst (validate_plugin (PluginFile n (Json plugin))) in
  let sent := snd (validate_plugin (PluginFile n (Json plugin))) in
  errors = id_check plugin ++ fst (screenshot_check plugin)
             ++ fst (repo_check plugin) /\
  sent = snd (screenshot_check plugin) ++ snd (repo_check plugin) /\
  (forall screenshot_url,
      plugin !! "screenshot" = Some screenshot_url ->
      PyStr.is_empty screenshot_url = false ->
      fst (fst (validate_url screenshot_url 10)) = false ->
      screenshot_check plugin =
      (["Screenshot URL unreachable: "
          +:+ snd (fst (validate_url screenshot_url 10))],
       snd (validate_url screenshot_url 10))) /\
  (forall repo_url,
      plugin !! "repo" = Some repo_url ->
      PyStr.is_empty repo_url = false ->
      let fetched :=
        fetch_plugin_json repo_url (default "" (plugin !! "path")) in
      (fst (fst (validate_url repo_url 10)) = true ->
       fst (repo_check plugin) =
         fst (path_check repo_url plugin) ++ fst (cross_check repo_url plugin) /\
       snd (repo_check plugin) =
         snd (validate_url repo_url 10) ++ snd (path_check repo_url plugin)
           ++ snd fetched /\
       (forall path,
           plugin !! "path" = Some path -> PyStr.is_empty path = false ->
           fst (path_check repo_url plugin) =
             (if fst (fst (validate_repo_path repo_url path)) then []
              else ["Path validation failed: "
                      +:+ snd (fst (validate_repo_path repo_url path))]) /\
           exists printed,
             snd (path_check repo_url plugin) =
             snd (validate_repo_path repo_url path) ++ printed) /\
       fst (cross_check repo_url plugin) =
         match fst fetched with
         | (None, error_msg) =>
             ["Failed to fetch repository plugin.json: " +:+ error_msg]
         | (Some repo_plugin_data, _) =>
             name_match plugin repo_plugin_data
               ++ id_match plugin repo_plugin_data
         end) /\
      (fst (fst (validate_url repo_url 10)) = false ->
       repo_check plugin =
       (["Repository URL unreachable: "
           +:+ snd (fst (validate_url repo_url 10))],
        snd (validate_url repo_url 10)))).
Proof.
  cbv zeta. split; [apply validate_plugin_errors|].
  split; [apply validate_plugin_trace|]. split.
  - intros u Hs Hse Hv. rewrite (screenshot_check_probed plugin u Hs Hse), Hv.
    reflexivity.
  - intros r Hr Hre. split; intros Hv.
    + destruct (repo_check_reachable plugin r Hr Hre Hv) as [-> ->].
      rewrite cross_check_trace.
      split; [reflexivity|]. split; [reflexivity|].
      split; [|apply cross_check_errors].
      intros pa Hp Hpe. apply path_check_runs; assumption.
    + apply repo_check_unreachable; assumption.
Qed.

(** *** Unsupported hosting services *)

(** C2, amended: for a record whose repository URL is reachable, names
    an owner and a repository, is on a domain outside the three supported
    families, and whose path is not empty, the path check sends nothing,
    succeeds with a warning, which is printed, and adds no error; the
    fetch of [plugin.json] then fails for the same reason, so the error
    list of the record ends with "Failed to fetch repository plugin.json:
    Unsupported hosting service: <domain>". *)
Theorem unsupported_host_path_skipped (n : string)
    (plugin : gmap string string) (repo_url path : string) :
  plugin !! "repo" = Some repo_url ->
  PyStr.is_empty repo_url = false ->
  fst (fst (validate_url repo_url 10)) = true ->
  supported_host (Url.netloc (urlparse repo_url)) = false ->
  plugin !! "path" = Some path ->
  PyStr.is_empty path = false ->
  (2 <= length (path_parts (urlparse repo_url)))%nat ->
  let netloc := Url.netloc (urlparse repo_url) in
  let warning :=
    "Warning: Path validation skipped for " +:+ netloc
      +:+ " (unsupported hosting service)" in
  validate_repo_path repo_url path = ((true, warning), []) /\
  fetch_plugin_json repo_url path =
    ((None, "Unsupported hosting service: " +:+ netloc), []) /\
  fst (validate_plugin (PluginFile n (Json plugin))) =
    id_check plugin ++ fst (screenshot_check plugin)
      ++ ["Failed to fetch repository plugin.json: Unsupported hosting service: "
            +:+ netloc] /\
  snd (validate_plugin (PluginFile n (Json plugin))) =
    snd (screenshot_check plugin) ++ snd (validate_url repo_url 10)
      ++ [Printed (" " +:+ YELLOW +:+ "(" +:+ warning +:+ ")" +:+ RESET)].
Proof.
  intros Hr Hre Hv Hhost Hp Hpe Hlen. cbv zeta.
  unfold supported_host in Hhost.
  apply orb_false_iff in Hhost as [Hhost H3].
  apply orb_false_iff in Hhost as [H1 H2].
  assert (Hl : (length (path_parts (urlparse repo_url)) <? 2)%nat = false)
    by (apply Nat.ltb_ge; exact Hlen).
  assert (Hpath : validate_repo_path repo_url path =
                  ((true, "Warning: Path validation skipped for "
                            +:+ Url.netloc (urlparse repo_url)
                            +:+ " (unsupported hosting service)"), [])).
  { unfold validate_repo_path. rewrite Hl, H1, H2, H3. reflexivity. }
  assert (Hfetch : fetch_plugin_json repo_url path =
                   ((None, "Unsupported hosting service: "
                             +:+ Url.netloc (urlparse repo_url)), [])).
  { unfold fetch_plugin_json. rewrite Hl, H1, H2, H3. reflexivity. }
  split; [exact Hpath|]. split; [exact Hfetch|].
  rewrite validate_plugin_errors, validate_plugin_trace.
  destruct (repo_check_reachable plugin repo_url Hr Hre Hv) as [-> ->].
  rewrite cross_check_errors, cross_check_trace.
  rewrite Hp. cbn [default from_option]. unfold id. rewrite Hfetch.
  unfold path_check. rewrite Hp, Hpe, Hpath.
  unfold print_end, bind, ret. cbn. rewrite append_empty_r.
  split; reflexivity.
Qed.

(** *** The cross-check of name and id *)

Lemma filter_none (P : string -> bool) (l : list string) :
  Forall (fun e => P e = false) l -> List.filter P l = [].
Proof.
  induction 1 as [|e l He _ IH]; [reflexivity|].
  simpl. rewrite He. exact IH.
Qed.

(** Entries that only the cross-check can produce: with the repository
    reachable and its [plugin.json] fetched, they are those of the name
    comparison followed by those of the id comparison. *)
Lemma validate_plugin_filter_cross (P : string -> bool) (n : string)
    (plugin repo_plugin_data : gmap string string) (repo_url : string) :
  P "Missing required 'id' property" = false ->
  P "ID is empty" = false ->
  (forall i, P ("ID '" +:+ i +:+ "' is not in camelCase format (must start with lowercase letter and contain only letters/digits)") = false) ->
  P "Missing required 'screenshot' property" = false ->
  P "Screenshot URL is empty" = false ->
  (forall m, P ("Screenshot URL unreachable: " +:+ m) = false) ->
  (forall m, P ("Path validation failed: " +:+ m) = false) ->
  plugin !! "repo" = Some repo_url ->
  PyStr.is_empty repo_url = false ->
  fst (fst (validate_url repo_url 10)) = true ->
  fst (fst (fetch_plugin_json repo_url (default "" (plugin !! "path"))))
    = Some repo_plugin_data ->
  List.filter P (fst (validate_plugin (PluginFile n (Json plugin)))) =
  List.filter P (name_match plugin repo_plugin_data)
    ++ List.filter P (id_match plugin repo_plugin_data).
Proof.
  intros H1 H2 H3 H4 H5 H6 H7 Hr Hre Hv Hf.
  rewrite validate_plugin_errors.
  destruct (repo_check_reachable plugin repo_url Hr Hre Hv) as [-> _].
  rewrite cross_check_errors.
  destruct (fst (fetch_plugin_json _ _)) as [d m]. cbn [fst] in Hf. subst d.
  rewrite !List.filter_app.
  rewrite (filter_none P (id_check plugin))
    by (apply id_check_Forall; auto).
  rewrite (filter_none P (fst (screenshot_check plugin)))
    by (apply screenshot_check_Forall; auto).
  rewrite (filter_none P (fst (path_check repo_url plugin)))
    by (apply path_check_Forall; auto).
  reflexivity.
Qed.

(** No check reports a name error for a record without a name. *)
Lemma no_name_error_without_name (n : string) (plugin : gmap string string) :
  plugin !! "name" = None ->
  Forall (fun e => is_name_error e = false)
         (fst (validate_plugin (PluginFile n (Json plugin)))).
Proof.
  intros Hn. rewrite validate_plugin_errors. repeat apply Forall_app_2.
  - apply id_check_Forall; intros; reflexivity.
  - apply screenshot_check_Forall; intros; reflexivity.
  - apply repo_check_Forall; try (intros; reflexivity).
    + intros d. unfold name_match. rewrite Hn. constructor.
    + intros d. apply id_match_Forall; intros; reflexivity.
Qed.

(** C3, amended: the name comparison is made only for a record that has
    a name.  The file name never matters to the result.  A record without
    a name gets no name error, whatever the repository's [plugin.json]
    holds.  For a record with a name, a reachable repository and a fetched
    [plugin.json], a missing or empty remote name is reported as missing,
    a different one as a mismatch that names both, and an equal one gives
    no name error. *)
Theorem name_compared_only_when_declared (n : string)
    (plugin : gmap string string) :
  let errors := fst (validate_plugin (PluginFile n (Json plugin))) in
  (forall n', validate_plugin (PluginFile n' (Json plugin))
              = validate_plugin (PluginFile n (Json plugin))) /\
  (plugin !! "name" = None -> count is_name_error errors = 0%nat) /\
  (forall plugin_name repo_url repo_plugin_data,
      plugin !! "name" = Some plugin_name ->
      plugin !! "repo" = Some repo_url ->
      PyStr.is_empty repo_url = false ->
      fst (fst (validate_url repo_url 10)) = true ->
      fst (fst (fetch_plugin_json repo_url (default "" (plugin !! "path"))))
        = Some repo_plugin_data ->
      List.filter is_name_error errors =
      match repo_plugin_data !! "name" with
      | None => ["Repository plugin.json is missing 'name' field"]
      | Some repo_plugin_name =>
          if PyStr.is_empty repo_plugin_name then
            ["Repository plugin.json is missing 'name' field"]
          else if String.eqb repo_plugin_name plugin_name then []
          else ["Name mismatch: registry has '" +:+ plugin_name
                  +:+ "' but repository plugin.json has '"
                  +:+ repo_plugin_name +:+ "'"]
      end).
Proof.
  cbv zeta. split; [|split].
  - intros n'. rewrite !validate_plugin_checks. reflexivity.
  - intros Hn. apply count_none, no_name_error_without_name, Hn.
  - intros nm r d Hn Hr Hre Hv Hf.
    rewrite (validate_plugin_filter_cross is_name_error n plugin d r);
      try assumption; try (intros; reflexivity).
    rewrite (filter_none is_name_error (id_match plugin d))
      by (apply id_match_Forall; intros; reflexivity).
    rewrite app_nil_r. unfold name_match. rewrite Hn.
    destruct (d !! "name") as [rn|]; [|reflexivity].
    destruct (PyStr.is_empty rn); [reflexivity|].
    destruct (String.eqb rn nm); reflexivity.
Qed.

(** C7, amended: for a record with an id, a reachable repository and a
    fetched [plugin.json]: a remote id that is present, not empty and
    different from the local one gives exactly one "ID mismatch" entry,
    which names both; equal ids and equal names give no "ID mismatch" and
    no "Name mismatch" entry. *)
Theorem id_cross_check (n : string) (plugin repo_plugin_data : gmap string string)
    (plugin_id repo_url : string) :
  plugin !! "id" = Some plugin_id ->
  plugin !! "repo" = Some repo_url ->
  PyStr.is_empty repo_url = false ->
  fst (fst (validate_url repo_url 10)) = true ->
  fst (fst (fetch_plugin_json repo_url (default "" (plugin !! "path"))))
    = Some repo_plugin_data ->
  let errors := fst (validate_plugin (PluginFile n (Json plugin))) in
  (forall repo_plugin_id,
      repo_plugin_data !! "id" = Some repo_plugin_id ->
      PyStr.is_empty repo_plugin_id = false ->
      repo_plugin_id <> plugin_id ->
      List.filter (has_prefix "ID mismatch") errors =
      ["ID mismatch: registry has '" +:+ plugin_id
         +:+ "' but repository plugin.json has '" +:+ repo_plugin_id +:+ "'"]) /\
  (repo_plugin_data !! "id" = Some plugin_id ->
   repo_plugin_data !! "name" = plugin !! "name" ->
   count (has_prefix "ID mismatch") errors = 0%nat /\
   count (has_prefix "Name mismatch") errors = 0%nat).
Proof.
  intros Hi Hr Hre Hv Hf. cbv zeta. split.
  - intros ri Hri Hne Hdiff.
    rewrite (validate_plugin_filter_cross _ n plugin repo_plugin_data repo_url);
      try assumption; try (intros; reflexivity).
    rewrite (filter_none _ (name_match plugin repo_plugin_data))
      by (apply name_match_Forall; intros; reflexivity).
    unfold id_match. rewrite Hi, Hri, Hne.
    apply String.eqb_neq in Hdiff. rewrite Hdiff. reflexivity.
  - intros Hri Hrn. unfold count.
    rewrite !(validate_plugin_filter_cross _ n plugin repo_plugin_data repo_url);
      try assumption; try (intros; reflexivity).
    unfold id_match, name_match. rewrite Hi, Hri, Hrn.
    rewrite String.eqb_refl.
    destruct (plugin !! "name") as [nm|]; [rewrite String.eqb_refl|].
    + destruct (PyStr.is_empty nm); destruct (PyStr.is_empty plugin_id);
        split; reflexivity.
    + destruct (PyStr.is_empty plugin_id); split; reflexivity.
Qed.

(** *** [main] *)

Lemma fst_bind {A B} (m : IO A) (k : A -> IO B) :
  fst (bind m k) = fst (k (fst m)).
Proof. reflexivity. Qed.

Lemma insert_sorted_In (f g : plugin_file) (l : list plugin_file) :
  In g (insert_sorted f l) <-> g = f \/ In g l.
Proof.
  induction l as [|h l IH]; simpl.
  - intuition auto.
  - destruct (String.ltb (name h) (name f)); simpl; rewrite ?IH;
      intuition auto.
Qed.

Lemma sorted_In (g : plugin_file) (l : list plugin_file) :
  In g (sorted l) <-> In g l.
Proof.
  induction l as [|f l IH]; simpl; [reflexivity|].
  rewrite insert_sorted_In, IH. intuition auto.
Qed.

Lemma dict_set_not_nil (d : list (string * list string)) (key : string)
    (value : list string) :
  dict_set d key value <> [].
Proof.
  destruct d as [|[k v] d]; simpl; [discriminate|].
  destruct (String.eqb k key); discriminate.
Qed.

(** The loop leaves [all_errors] empty exactly when it started empty and
    every file validated. *)
Lemma validate_all_nil (plugin_files : list plugin_file)
    (all_errors : list (string * list string)) :
  fst (validate_all plugin_files all_errors) = [] <->
  all_errors = [] /\
  forall f, In f plugin_files -> fst (validate_plugin f) = [].
Proof.
  revert all_errors.
  induction plugin_files as [|f fs IH]; intros all_errors.
  - simpl. intuition auto.
  - cbn [validate_all]. rewrite !fst_bind, IH.
    destruct (fst (validate_plugin f)) as [|e errors] eqn:E.
    + rewrite fst_bind. cbn [ret fst]. split.
      * intros [-> H]. split; [reflexivity|].
        intros g [<- | Hg]; [exact E | auto].
      * intros [-> H]. split; [reflexivity|]. intros g Hg. apply H. right.
        exact Hg.
    + rewrite fst_bind. cbn [ret fst]. split.
      * intros [H _]. exfalso. exact (dict_set_not_nil _ _ _ H).
      * intros [_ H]. specialize (H f (or_introl eq_refl)). congruence.
Qed.

(** C6: [main] exits with 0 or 1.  It exits with 0 exactly when the
    plugins directory exists and every plugin file in it validates, which
    covers a directory with no plugin file; in that case it only prints a
    warning.  It exits with 1 when the directory does not exist and when
    some plugin file has an error. *)
Theorem main_exit_code (plugins_dir : option (list plugin_file)) :
  let code := fst (main plugins_dir) in
  (code = 0 \/ code = 1) /\
  (code = 0 <->
   exists entries,
     plugins_dir = Some entries /\
     forall f, In f (glob_json entries) -> fst (validate_plugin f) = []) /\
  (plugins_dir = None -> code = 1) /\
  (forall entries f,
      plugins_dir = Some entries -> In f (glob_json entries) ->
      fst (validate_plugin f) <> [] -> code = 1) /\
  (forall entries,
      plugins_dir = Some entries -> glob_json entries = [] ->
      main plugins_dir =
      (0, [Printed (YELLOW +:+ "Warning: No plugin files found in plugins/"
                      +:+ RESET +:+ newline)])).
Proof.
  cbv zeta.
  assert (Hcode : fst (main plugins_dir) =
                  match plugins_dir with
                  | None => 1
                  | Some entries =>
                      match fst (validate_all (sorted (glob_json entries)) [])
                      with [] => 0 | _ :: _ => 1 end
                  end).
  { unfold main. destruct plugins_dir as [entries|]; [|reflexivity].
    destruct (glob_json entries) as [|f fs] eqn:E; [reflexivity|].
    rewrite !fst_bind.
    destruct (fst (validate_all _ _)); reflexivity. }
  assert (Hiff : fst (main plugins_dir) = 0 <->
                 exists entries,
                   plugins_dir = Some entries /\
                   forall f, In f (glob_json entries) ->
                             fst (validate_plugin f) = []).
  { rewrite Hcode. destruct plugins_dir as [entries|].
    - destruct (fst (validate_all _ _)) as [|x l] eqn:E.
      + apply validate_all_nil in E as [_ E]. split; [|reflexivity].
        intros _. exists entries. split; [reflexivity|].
        intros f Hf. apply E, sorted_In, Hf.
      + split; [discriminate|]. intros (entries' & [= <-] & H).
        assert (fst (validate_all (sorted (glob_json entries)) []) = []).
        { apply validate_all_nil. split; [reflexivity|].
          intros f Hf. apply H, sorted_In, Hf. }
        congruence.
    - split; [discriminate | intros (entries & H & _); discriminate]. }
  assert (H01 : fst (main plugins_dir) = 0 \/ fst (main plugins_dir) = 1).
  { rewrite Hcode. destruct plugins_dir as [entries|]; [|auto].
    destruct (fst (validate_all _ _)); auto. }
  split; [exact H01|]. split; [exact Hiff|]. split; [|split].
  - intros ->. reflexivity.
  - intros entries f -> Hf Herr. destruct H01 as [H0 | H1]; [|exact H1].
    apply Hiff in H0 as (entries' & [= <-] & H). elim Herr. apply H, Hf.
  - intros entries -> E. unfold main. rewrite E. reflexivity.
Qed.

(** ** More properties *)

(** *** Accepted ids *)

Lemma alnum_not_separator (c : ascii) : alnum c = true -> separator c = false.
Proof.
  destruct c as [[] [] [] [] [] [] [] []]; intros H;
    first [reflexivity | discriminate H].
Qed.

Lemma all_chars_append (p : ascii -> bool) (s t : string) :
  all_chars p (s +:+ t) = all_chars p s && all_chars p t.
Proof.
  induction s as [|c s IH]; [reflexivity|].
  change (p c && all_chars p (s +:+ t) = p c && all_chars p s && all_chars p t).
  rewrite IH. apply andb_assoc.
Qed.

Lemma all_chars_weaken (p q : ascii -> bool) (s : string) :
  (forall c, p c = true -> q c = true) ->
  all_chars p s = true -> all_chars q s = true.
Proof.
  intros Hpq. induction s as [|c s IH]; [reflexivity|]. simpl.
  rewrite !andb_true_iff. intros [Hc Hs]. auto.
Qed.

(** X3: an accepted id starts with a lowercase letter and holds no
    underscore, hyphen or space. *)
Theorem is_camel_case_no_separator (s : string) :
  is_camel_case s = true ->
  (exists c rest, s = String c rest /\ lower c = true) /\
  all_chars (fun c => negb (separator c)) s = true.
Proof.
  intros H. apply is_camel_case_accepts in H as (c & body & Hc & Hb & Hs).
  assert (Hbody : all_chars (fun c => negb (separator c)) (String c body) = true).
  { simpl. rewrite (alnum_not_separator c (lower_alnum c Hc)). simpl.
    apply (all_chars_weaken alnum); [|exact Hb].
    intros a Ha. rewrite (alnum_not_separator a Ha). reflexivity. }
  destruct Hs as [-> | ->].
  - split; [eauto | exact Hbody].
  - split; [exists c, (body +:+ newline); auto|].
    rewrite all_chars_append, Hbody. reflexivity.
Qed.

(** *** What [validate_repo_path] and [fetch_plugin_json] return *)

(** X4: [validate_repo_path] sends at most one request.  A failure always
    comes with a message.  It succeeds without a message exactly when it
    sent one request to the provider's API and the response had status 200
    and, on GitLab, decoded to something other than an empty list.  A
    success with a message sent nothing: it is the warning for a domain of
    no supported family. *)
Theorem validate_repo_path_result (repo_url path : string) :
  let r := validate_repo_path repo_url path in
  let netloc := Url.netloc (urlparse repo_url) in
  (length (snd r) <= 1)%nat /\
  (fst (fst r) = false -> PyStr.is_empty (snd (fst r)) = false) /\
  (fst r = (true, "") <->
   exists req response,
     snd r = [Sent req] /\ listing net req = Returned response /\
     status_code response = 200 /\
     (is_gitlab netloc = true ->
      exists data, json response = inr data /\ is_empty_list data = false)) /\
  (fst (fst r) = true -> PyStr.is_empty (snd (fst r)) = false ->
   snd r = [] /\ supported_host netloc = false /\
   snd (fst r) = "Warning: Path validation skipped for " +:+ netloc
                   +:+ " (unsupported hosting service)").
Proof.
  cbv zeta. unfold validate_repo_path, supported_host, is_gitlab,
    requests_get_listing.
  destruct (length (path_parts (urlparse repo_url)) <? 2)%nat.
  { cbn. repeat split; try discriminate; auto.
    intros (req & resp & H & _). discriminate H. }
  destruct (String.eqb (Url.netloc (urlparse repo_url)) "github.com") eqn:H1;
    [|destruct (String.eqb (Url.netloc (urlparse repo_url)) "gitlab.com"
               || PyStr.contains "gitlab" (Url.netloc (urlparse repo_url)))
        eqn:H2;
      [|destruct (String.eqb (Url.netloc (urlparse repo_url)) "codeberg.org"
                 || PyStr.contains "gitea" (Url.netloc (urlparse repo_url))
                 || PyStr.contains "forgejo" (Url.netloc (urlparse repo_url)))
          eqn:H3]].
  4: { cbn. repeat split; try discriminate; auto.
       intros (req & resp & H & _). discriminate H. }
  all: rewrite bind_pair; cbn [fst snd negb andb orb].
  all: change (String.eqb "GitHub" "GitHub") with true;
    change (String.eqb "GitHub" "GitLab") with false;
    change (String.eqb "GitLab" "GitHub") with false;
    change (String.eqb "GitLab" "GitLab") with true;
    change (String.eqb "Gitea/Forgejo" "GitHub") with false;
    change (String.eqb "Gitea/Forgejo" "GitLab") with false; cbv iota.
  all: match goal with |- context [listing net ?q] =>
         set (req0 := q); destruct (listing net req0) as [resp|e] eqn:E end.
  all: try (destruct (status_code resp =? 200) eqn:E200;
            [apply Z.eqb_eq in E200
            |apply Z.eqb_neq in E200; destruct (status_code resp =? 404)]).
  all: try (destruct (json resp) as [msg|data] eqn:Ej;
            [|destruct (is_empty_list data) eqn:Ed]).
  all: cbn [fst snd ret app length].
  all: (split; [lia|]).
  all: (split; [first [discriminate | intros _; reflexivity]|]).
  all: (split; [|intros Ht He; first [discriminate Ht | discriminate He]]).
  all: split;
    [ first [ discriminate
            | intros _; exists req0, resp;
              split; [reflexivity|]; split; [exact E|]; split; [exact E200|];
              first [ discriminate | intros _; eauto ] ]
    | first [ intros _; reflexivity
            | intros (req & resp' & [= <-] & Hl & Hs & Hg);
              rewrite E in Hl; first [discriminate Hl | injection Hl as <-];
              first [ contradiction
                    | destruct (Hg eq_refl) as (data' & Hd & Hd');
                      rewrite Ej in Hd;
                      first [discriminate Hd | injection Hd as <-; congruence] ] ] ].
Qed.


(** *** The requests of a run *)

Lemma requests_of_app (t1 t2 : list event) :
  requests_of (t1 ++ t2) = requests_of t1 ++ requests_of t2.
Proof.
  induction t1 as [|[r|text] t1 IH]; simpl; [reflexivity| |exact IH].
  rewrite IH. reflexivity.
Qed.

Lemma requests_of_length (t : list event) :
  (length (requests_of t) <= length t)%nat.
Proof. induction t as [|[r|text] t IH]; simpl; lia. Qed.

Lemma requests_of_bind {A B} (m : IO A) (k : A -> IO B) :
  requests_of (snd (bind m k)) =
  requests_of (snd m) ++ requests_of (snd (k (fst m))).
Proof. unfold bind. cbn [snd]. apply requests_of_app. Qed.

Lemma startswith_append (p s : string) : PyStr.startswith (p +:+ s) p = true.
Proof.
  induction p as [|c p IH]; [destruct s; reflexivity|].
  change (Ascii.eqb c c && PyStr.startswith (p +:+ s) p = true).
  rewrite Ascii.eqb_refl. exact IH.
Qed.

Ltac disciplined_request :=
  unfold disciplined; split; [reflexivity|]; split; [reflexivity|];
  first [ left; reflexivity
        | right; split; [reflexivity|];
          first [ left; reflexivity
                | right; apply startswith_append ] ].

Lemma validate_url_requests (url : string) :
  Forall disciplined (requests_of (snd (validate_url url 10))) /\
  (length (requests_of (snd (validate_url url 10))) <= 2)%nat.
Proof.
  rewrite validate_url_eq. cbn [snd requests_of].
  assert (Hh : disciplined (head_request url 10)) by disciplined_request.
  assert (Hg : disciplined (get_request url 10)) by disciplined_request.
  destruct (is_405 _); cbn; split; auto; lia.
Qed.

Lemma validate_repo_path_requests (repo_url path : string) :
  Forall disciplined (requests_of (snd (validate_repo_path repo_url path))) /\
  (length (requests_of (snd (validate_repo_path repo_url path))) <= 1)%nat.
Proof.
  unfold validate_repo_path, requests_get_listing.
  destruct (length (path_parts (urlparse repo_url)) <? 2)%nat;
    [cbn; auto|].
  destruct (String.eqb (Url.netloc (urlparse repo_url)) "github.com");
    [|destruct (String.eqb (Url.netloc (urlparse repo_url)) "gitlab.com"
               || PyStr.contains "gitlab" (Url.netloc (urlparse repo_url)));
      [|destruct (String.eqb (Url.netloc (urlparse repo_url)) "codeberg.org"
                 || PyStr.contains "gitea" (Url.netloc (urlparse repo_url))
                 || PyStr.contains "forgejo" (Url.netloc (urlparse repo_url)));
        [|cbn; auto]]].
  all: rewrite requests_of_bind; cbn [fst snd requests_of].
  all: change (String.eqb "GitHub" "GitHub") with true;
    change (String.eqb "GitLab" "GitHub") with false;
    change (String.eqb "Gitea/Forgejo" "GitHub") with false; cbv iota.
  all: match goal with |- context [requests_of (snd ?x)] =>
         assert (Hx : snd x = []);
         [|rewrite Hx; cbn [requests_of app length]; split; [|lia];
           constructor; [|constructor]; disciplined_request]
       end.
  all: match goal with |- context [listing net ?q] =>
         destruct (listing net q) as [resp|e] end; [|reflexivity].
  all: destruct (status_code resp =? 200); [|destruct (status_code resp =? 404);
                                             reflexivity].
  all: try reflexivity.
  destruct (json resp) as [msg|data]; [reflexivity|].
  destruct (is_empty_list data); reflexivity.
Qed.

Lemma fetch_plugin_json_requests (repo_url path : string) :
  Forall disciplined (requests_of (snd (fetch_plugin_json repo_url path))) /\
  (length (requests_of (snd (fetch_plugin_json repo_url path))) <= 2)%nat.
Proof.
  unfold fetch_plugin_json.
  destruct (length (path_parts (urlparse repo_url)) <? 2)%nat;
    [cbn; auto|].
  destruct (String.eqb (Url.netloc (urlparse repo_url)) "github.com").
  - rewrite fetch_from_branches_two. cbv zeta.
    set (main := github_raw_request _ _ "main" _).
    set (master := github_raw_request _ _ "master" _).
    assert (Hm : disciplined main) by disciplined_request.
    assert (Hm' : disciplined master) by disciplined_request.
    destruct (raw_file net main) as [r1|e1];
      [destruct (status_code r1 =? 200)|]; cbn [snd requests_of length];
      split; auto; lia.
  - destruct (String.eqb (Url.netloc (urlparse repo_url)) "gitlab.com"
              || PyStr.contains "gitlab" (Url.netloc (urlparse repo_url)));
      [|destruct (String.eqb (Url.netloc (urlparse repo_url)) "codeberg.org"
                 || PyStr.contains "gitea" (Url.netloc (urlparse repo_url))
                 || PyStr.contains "forgejo" (Url.netloc (urlparse repo_url)));
        [|cbn; auto]].
    all: unfold requests_get_raw; rewrite requests_of_bind;
      cbn [fst snd requests_of].
    all: match goal with |- context [requests_of (snd ?x)] =>
           assert (Hx : snd x = []);
           [|rewrite Hx; cbn [requests_of app length]; split; [|lia];
             constructor; [|constructor]; disciplined_request]
         end.
    all: match goal with |- context [raw_file net ?q] =>
           destruct (raw_file net q) as [resp|e] end; [|reflexivity].
    all: destruct (status_code resp =? 200);
      [destruct (json resp)|destruct (status_code resp =? 404)]; reflexivity.
Qed.

Lemma path_check_requests (repo_url : string) (plugin : gmap string string) :
  Forall disciplined (requests_of (snd (path_check repo_url plugin))) /\
  (length (requests_of (snd (path_check repo_url plugin))) <= 1)%nat.
Proof.
  unfold path_check.
  destruct (plugin !! "path") as [pa|]; [|cbn; auto].
  destruct (PyStr.is_empty pa); [cbn; auto|].
  pose proof (validate_repo_path_requests repo_url pa) as [Hf Hl].
  destruct (validate_repo_path repo_url pa) as [[[] m] t];
    rewrite bind_pair; cbn [fst snd negb] in *.
  - destruct (PyStr.is_empty m); cbn [print_end bind ret fst snd];
      rewrite requests_of_app; cbn [requests_of app]; rewrite app_nil_r; auto.
  - rewrite app_nil_r. auto.
Qed.

Lemma validate_plugin_requests (f : plugin_file) :
  Forall disciplined (requests_of (snd (validate_plugin f))) /\
  (length (requests_of (snd (validate_plugin f))) <= 7)%nat.
Proof.
  destruct f as [n [e|e|plugin]]; [cbn; split; [constructor|lia]..|].
  rewrite validate_plugin_trace, requests_of_app, length_app, Forall_app.
  assert (Hs : Forall disciplined (requests_of (snd (screenshot_check plugin)))
               /\ (length (requests_of (snd (screenshot_check plugin))) <= 2)%nat).
  { unfold screenshot_check.
    destruct (plugin !! "screenshot") as [u|]; [|cbn; split; [constructor|lia]].
    destruct (PyStr.is_empty u); [cbn; split; [constructor|lia]|].
    rewrite requests_of_bind. cbn [ret snd requests_of]. rewrite app_nil_r.
    apply validate_url_requests. }
  assert (Hr : Forall disciplined (requests_of (snd (repo_check plugin)))
               /\ (length (requests_of (snd (repo_check plugin))) <= 5)%nat).
  { destruct (plugin !! "repo") as [r|] eqn:Er;
      [|unfold repo_check; rewrite Er; cbn; split; [constructor|lia]].
    destruct (PyStr.is_empty r) eqn:Ee;
      [unfold repo_check; rewrite Er, Ee; cbn; split; [constructor|lia]|].
    destruct (validate_url_requests r) as [Hu Hul].
    destruct (fst (fst (validate_url r 10))) eqn:Ev.
    - destruct (repo_check_reachable plugin r Er Ee Ev) as [_ ->].
      rewrite cross_check_trace, !requests_of_app, !length_app, !Forall_app.
      destruct (path_check_requests r plugin) as [Hp Hpl].
      destruct (fetch_plugin_json_requests r (default "" (plugin !! "path")))
        as [Hf Hfl].
      repeat split; auto; lia.
    - rewrite (repo_check_unreachable plugin r Er Ee Ev). cbn [snd].
      split; [exact Hu | lia]. }
  destruct Hs as [Hs Hsl], Hr as [Hr Hrl]. repeat split; auto; lia.
Qed.

Lemma validate_all_requests (plugin_files : list plugin_file)
    (all_errors : list (string * list string)) :
  requests_of (snd (validate_all plugin_files all_errors)) =
  flat_map (fun f => requests_of (snd (validate_plugin f))) plugin_files.
Proof.
  revert all_errors.
  induction plugin_files as [|f fs IH]; intros all_errors; [reflexivity|].
  cbn [validate_all flat_map]. rewrite !requests_of_bind, IH.
  cbn [print_end snd requests_of app]. f_equal.
  destruct (fst (validate_plugin f)); reflexivity.
Qed.

Lemma print_errors_requests (errors : list string) :
  requests_of (snd (print_errors errors)) = [].
Proof.
  induction errors as [|e errors IH]; [reflexivity|].
  cbn [print_errors]. rewrite requests_of_bind, IH. reflexivity.
Qed.

Lemma print_failures_requests (items : list (string * list string)) :
  requests_of (snd (print_failures items)) = [].
Proof.
  induction items as [|[k v] items IH]; [reflexivity|].
  cbn [print_failures]. rewrite !requests_of_bind, IH, print_errors_requests.
  reflexivity.
Qed.

(** The requests of [main] are those of [validate_plugin] on each plugin
    file, in the order of their names. *)
Lemma main_requests_eq (plugins_dir : option (list plugin_file)) :
  requests_of (snd (main plugins_dir)) =
  match plugins_dir with
  | None => []
  | Some entries =>
      flat_map (fun f => requests_of (snd (validate_plugin f)))
               (sorted (glob_json entries))
  end.
Proof.
  unfold main. destruct plugins_dir as [entries|]; [|reflexivity].
  destruct (glob_json entries) as [|f fs]; [reflexivity|].
  rewrite !requests_of_bind, validate_all_requests.
  cbn [print print_end snd requests_of app fst].
  destruct (fst (validate_all _ _)).
  - cbn. apply app_nil_r.
  - rewrite !requests_of_bind, print_failures_requests. cbn. apply app_nil_r.
Qed.

(** X6: every request sent during a run of [main] has the 10 second
    timeout and follows redirects; it carries headers only when it goes to
    api.github.com or raw.githubusercontent.com, and then they are the
    token header: nothing when [GITHUB_TOKEN] is unset or empty, else the
    one header "Authorization: token <GITHUB_TOKEN>". *)
Theorem requests_are_disciplined (plugins_dir : option (list plugin_file)) :
  Forall disciplined (requests_of (snd (main plugins_dir))) /\
  match GITHUB_TOKEN with
  | None => token_headers = []
  | Some token =>
      token_headers =
      if PyStr.is_empty token then []
      else [("Authorization", "token " +:+ token)]
  end.
Proof.
  split; [|unfold token_headers; destruct GITHUB_TOKEN; reflexivity].
  rewrite main_requests_eq. destruct plugins_dir as [entries|]; [|constructor].
  induction (sorted (glob_json entries)) as [|f fs IH]; [constructor|].
  cbn [flat_map]. apply Forall_app. split; [|exact IH].
  apply validate_plugin_requests.
Qed.

(** X7: [main] sends no request for a missing directory, and otherwise
    exactly the requests of [validate_plugin] on each entry whose name ends
    in ".json", in the order of the names; an entry with another name is
    never validated.  Each plugin file costs at most seven requests. *)
Theorem main_requests (plugins_dir : option (list plugin_file)) :
  requests_of (snd (main plugins_dir)) =
  match plugins_dir with
  | None => []
  | Some entries =>
      flat_map (fun f => requests_of (snd (validate_plugin f)))
               (sorted (glob_json entries))
  end /\
  (forall f, (length (requests_of (snd (validate_plugin f))) <= 7)%nat) /\
  (forall entries,
      plugins_dir = Some entries ->
      (length (requests_of (snd (main plugins_dir)))
       <= 7 * length (glob_json entries))%nat).
Proof.
  split; [apply main_requests_eq|]. split; [intros f; apply validate_plugin_requests|].
  intros entries ->. rewrite main_requests_eq.
  assert (Hlen : length (sorted (glob_json entries)) = length (glob_json entries)).
  { induction (glob_json entries) as [|f l IH]; [reflexivity|].
    cbn [sorted foldr]. fold (sorted l).
    assert (Hi : forall g l', length (insert_sorted g l') = S (length l')).
    { intros g l'. induction l' as [|h l' IH']; [reflexivity|].
      simpl. destruct (String.ltb (name h) (name g)); simpl; [rewrite IH'|];
        reflexivity. }
    rewrite Hi, IH. reflexivity. }
  rewrite <- Hlen. clear Hlen.
  induction (sorted (glob_json entries)) as [|f fs IH]; [cbn; lia|].
  cbn [flat_map length]. rewrite length_app.
  pose proof (proj2 (validate_plugin_requests f)). lia.
Qed.

(** *** Records that validate *)

Lemma is_camel_case_not_empty (s : string) :
  is_camel_case s = true -> PyStr.is_empty s = false.
Proof. destruct s; [discriminate | reflexivity]. Qed.

Lemma id_check_nil (plugin : gmap string string) :
  id_check plugin = [] <->
  exists plugin_id,
    plugin !! "id" = Some plugin_id /\ is_camel_case plugin_id = true.
Proof.
  unfold id_check. destruct (plugin !! "id") as [i|].
  - destruct (PyStr.is_empty i) eqn:Ee.
    + split; [discriminate|]. intros (j & [= <-] & Hc).
      apply is_camel_case_not_empty in Hc. congruence.
    + destruct (is_camel_case i) eqn:Ec.
      * split; [eauto | reflexivity].
      * split; [discriminate|]. intros (j & [= <-] & Hc). congruence.
  - split; [discriminate|]. intros (j & H & _). discriminate H.
Qed.

Lemma screenshot_check_nil (plugin : gmap string string) :
  fst (screenshot_check plugin) = [] <->
  exists screenshot_url,
    plugin !! "screenshot" = Some screenshot_url /\
    PyStr.is_empty screenshot_url = false /\
    fst (fst (validate_url screenshot_url 10)) = true.
Proof.
  destruct (plugin !! "screenshot") as [u|] eqn:Eu.
  - destruct (PyStr.is_empty u) eqn:Ee.
    + unfold screenshot_check. rewrite Eu, Ee. split; [discriminate|].
      intros (v & [= <-] & He & _). congruence.
    + rewrite (screenshot_check_probed plugin u Eu Ee). cbn [fst].
      destruct (fst (fst (validate_url u 10))) eqn:Ev.
      * split; [eauto | reflexivity].
      * split; [discriminate|]. intros (v & [= <-] & _ & Hv). congruence.
  - unfold screenshot_check. rewrite Eu. split; [discriminate|].
    intros (v & H & _). discriminate H.
Qed.

Lemma path_check_nil (repo_url : string) (plugin : gmap string string) :
  fst (path_check repo_url plugin) = [] <->
  forall path,
    plugin !! "path" = Some path -> PyStr.is_empty path = false ->
    fst (fst (validate_repo_path repo_url path)) = true.
Proof.
  destruct (plugin !! "path") as [pa|] eqn:Ep.
  - destruct (PyStr.is_empty pa) eqn:Ee.
    + unfold path_check. rewrite Ep, Ee. split; [|reflexivity].
      intros _ p [= <-] He. congruence.
    + destruct (path_check_runs repo_url pa plugin Ep Ee) as [-> _].
      destruct (fst (fst (validate_repo_path repo_url pa))) eqn:Ev.
      * split; [|reflexivity]. intros _ p [= <-] _. exact Ev.
      * split; [discriminate|]. intros H. specialize (H pa eq_refl Ee).
        congruence.
  - unfold path_check. rewrite Ep. split; [|reflexivity].
    intros _ p H. discriminate H.
Qed.

Lemma name_match_nil (plugin repo_plugin_data : gmap string string) :
  name_match plugin repo_plugin_data = [] <->
  forall plugin_name,
    plugin !! "name" = Some plugin_name ->
    PyStr.is_empty plugin_name = false /\
    repo_plugin_data !! "name" = Some plugin_name.
Proof.
  unfold name_match. destruct (plugin !! "name") as [nm|].
  - destruct (repo_plugin_data !! "name") as [rn|].
    + destruct (PyStr.is_empty rn) eqn:Ee.
      * split; [discriminate|]. intros H.
        destruct (H nm eq_refl) as [He [= <-]]. congruence.
      * destruct (String.eqb rn nm) eqn:Eq.
        -- apply String.eqb_eq in Eq. subst rn. split; [|reflexivity].
           intros _ p [= <-]. auto.
        -- apply String.eqb_neq in Eq. split; [discriminate|]. intros H.
           destruct (H nm eq_refl) as [_ [= <-]]. contradiction.
    + split; [discriminate|]. intros H.
      destruct (H nm eq_refl) as [_ H']. discriminate H'.
  - split; [|reflexivity]. intros _ p H. discriminate H.
Qed.

Lemma id_match_nil (plugin repo_plugin_data : gmap string string) :
  id_match plugin repo_plugin_data = [] <->
  forall plugin_id,
    plugin !! "id" = Some plugin_id ->
    PyStr.is_empty plugin_id = false /\
    repo_plugin_data !! "id" = Some plugin_id.
Proof.
  unfold id_match. destruct (plugin !! "id") as [i|].
  - destruct (repo_plugin_data !! "id") as [ri|].
    + destruct (PyStr.is_empty ri) eqn:Ee.
      * split; [discriminate|]. intros H.
        destruct (H i eq_refl) as [He [= <-]]. congruence.
      * destruct (String.eqb ri i) eqn:Eq.
        -- apply String.eqb_eq in Eq. subst ri. split; [|reflexivity].
           intros _ p [= <-]. auto.
        -- apply String.eqb_neq in Eq. split; [discriminate|]. intros H.
           destruct (H i eq_refl) as [_ [= <-]]. contradiction.
    + split; [discriminate|]. intros H.
      destruct (H i eq_refl) as [_ H']. discriminate H'.
  - split; [|reflexivity]. intros _ p H. discriminate H.
Qed.

Lemma cross_check_nil (repo_url : string) (plugin : gmap string string) :
  fst (cross_check repo_url plugin) = [] <->
  exists repo_plugin_data,
    fst (fst (fetch_plugin_json repo_url (default "" (plugin !! "path"))))
      = Some repo_plugin_data /\
    name_match plugin repo_plugin_data = [] /\
    id_match plugin repo_plugin_data = [].
Proof.
  rewrite cross_check_errors.
  destruct (fst (fetch_plugin_json _ _)) as [[d|] m]; cbn [fst].
  - split.
    + intros H. apply app_eq_nil in H. eauto.
    + intros (d' & [= <-] & -> & ->). reflexivity.
  - split; [discriminate|]. intros (d' & H & _). discriminate H.
Qed.

Lemma repo_check_nil (plugin : gmap string string) :
  fst (repo_check plugin) = [] <->
  exists repo_url,
    plugin !! "repo" = Some repo_url /\
    PyStr.is_empty repo_url = false /\
    fst (fst (validate_url repo_url 10)) = true /\
    fst (path_check repo_url plugin) = [] /\
    fst (cross_check repo_url plugin) = [].
Proof.
  destruct (plugin !! "repo") as [r|] eqn:Er.
  - destruct (PyStr.is_empty r) eqn:Ee.
    + unfold repo_check. rewrite Er, Ee. split; [discriminate|].
      intros (v & [= <-] & He & _). congruence.
    + destruct (fst (fst (validate_url r 10))) eqn:Ev.
      * destruct (repo_check_reachable plugin r Er Ee Ev) as [-> _]. split.
        -- intros H. apply app_eq_nil in H as [Hp Hc]. exists r. auto.
        -- intros (v & [= <-] & _ & _ & -> & ->). reflexivity.
      * rewrite (repo_check_unreachable plugin r Er Ee Ev). split;
          [discriminate|]. intros (v & [= <-] & _ & Hv & _). congruence.
  - unfold repo_check. rewrite Er. split; [discriminate|].
    intros (v & H & _). discriminate H.
Qed.

(** X9: a plugin record gets an empty error list exactly when its id is
    camelCase, its screenshot and repository URLs are present, not empty
    and reachable, the path check succeeds when the record has a non-empty
    path, the repository's [plugin.json] is fetched, its id is the local
    id, and, when the record has a name, that name is not empty and is
    the remote name. *)
Theorem validate_plugin_ok_iff (n : string) (plugin : gmap string string) :
  fst (validate_plugin (PluginFile n (Json plugin))) = [] <->
  exists plugin_id screenshot_url repo_url repo_plugin_data,
    plugin !! "id" = Some plugin_id /\
    is_camel_case plugin_id = true /\
    plugin !! "screenshot" = Some screenshot_url /\
    PyStr.is_empty screenshot_url = false /\
    fst (fst (validate_url screenshot_url 10)) = true /\
    plugin !! "repo" = Some repo_url /\
    PyStr.is_empty repo_url = false /\
    fst (fst (validate_url repo_url 10)) = true /\
    (forall path,
        plugin !! "path" = Some path -> PyStr.is_empty path = false ->
        fst (fst (validate_repo_path repo_url path)) = true) /\
    fst (fst (fetch_plugin_json repo_url (default "" (plugin !! "path"))))
      = Some repo_plugin_data /\
    (forall plugin_name,
        plugin !! "name" = Some plugin_name ->
        PyStr.is_empty plugin_name = false /\
        repo_plugin_data !! "name" = Some plugin_name) /\
    repo_plugin_data !! "id" = Some plugin_id.
Proof.
  rewrite validate_plugin_errors. split.
  - intros H. apply app_eq_nil in H as [Hi H].
    apply app_eq_nil in H as [Hs Hr].
    apply id_check_nil in Hi as (i & Hi & Hc).
    apply screenshot_check_nil in Hs as (s & Hs & Hse & Hsv).
    apply repo_check_nil in Hr as (r & Hr & Hre & Hrv & Hp & Hx).
    apply cross_check_nil in Hx as (d & Hf & Hn & Hm).
    exists i, s, r, d. repeat split; try assumption.
    + apply path_check_nil, Hp.
    + apply (proj1 (name_match_nil plugin d) Hn). assumption.
    + apply (proj1 (name_match_nil plugin d) Hn). assumption.
    + apply (proj1 (id_match_nil plugin d) Hm i Hi).
  - intros (i & s & r & d & Hi & Hc & Hs & Hse & Hsv & Hr & Hre & Hrv & Hp
            & Hf & Hn & Hm).
    rewrite (proj2 (id_check_nil plugin)) by eauto.
    rewrite (proj2 (screenshot_check_nil plugin)) by eauto.
    rewrite (proj2 (repo_check_nil plugin)); [reflexivity|].
    exists r. repeat split; try assumption.
    + apply path_check_nil, Hp.
    + apply cross_check_nil. exists d. split; [exact Hf|]. split.
      * apply name_match_nil, Hn.
      * apply id_match_nil. intros j Hj. rewrite Hi in Hj.
        injection Hj as <-. split; [|exact Hm].
        apply is_camel_case_not_empty, Hc.
Qed.

Lemma fetch_unsupported (repo_url path : string) :
  supported_host (Url.netloc (urlparse repo_url)) = false ->
  fst (fst (fetch_plugin_json repo_url path)) = None.
Proof.
  intros H. unfold supported_host in H.
  apply orb_false_iff in H as [H H3]. apply orb_false_iff in H as [H1 H2].
  unfold fetch_plugin_json.
  destruct (length (path_parts (urlparse repo_url)) <? 2)%nat; [reflexivity|].
  rewrite H1, H2, H3. reflexivity.
Qed.

(** X10: a record whose repository is on a domain outside the three
    supported families never validates: its error list is not empty,
    whatever the network answers. *)
Theorem unsupported_host_never_validates (n : string)
    (plugin : gmap string string) (repo_url : string) :
  plugin !! "repo" = Some repo_url ->
  supported_host (Url.netloc (urlparse repo_url)) = false ->
  fst (validate_plugin (PluginFile n (Json plugin))) <> [].
Proof.
  intros Hr Hhost H. rewrite validate_plugin_errors in H.
  apply app_eq_nil in H as [_ H]. apply app_eq_nil in H as [_ H].
  apply repo_check_nil in H as (r & Hr' & _ & _ & _ & Hx).
  rewrite Hr in Hr'. injection Hr' as <-.
  apply cross_check_nil in Hx as (d & Hf & _).
  rewrite (fetch_unsupported repo_url _ Hhost) in Hf. discriminate Hf.
Qed.

(** X8: a plugin file never gets more than five errors; one that cannot
    be read or is not JSON gets exactly one, and no request is sent for
    it. *)
Theorem validate_plugin_error_bound (f : plugin_file) :
  (length (fst (validate_plugin f)) <= 5)%nat /\
  ((forall plugin, content f <> Json plugin) ->
   length (fst (validate_plugin f)) = 1%nat /\ snd (validate_plugin f) = []).
Proof.
  destruct f as [n [e|e|plugin]].
  1,2: cbn; split; [lia | auto].
  split; [|intros H; elim (H plugin); reflexivity].
  rewrite validate_plugin_errors, !length_app.
  assert (Hi : (length (id_check plugin) <= 1)%nat).
  { unfold id_check. destruct (plugin !! "id") as [i|]; [|cbn; lia].
    destruct (PyStr.is_empty i); [cbn; lia|].
    destruct (is_camel_case i); cbn; lia. }
  assert (Hs : (length (fst (screenshot_check plugin)) <= 1)%nat).
  { unfold screenshot_check.
    destruct (plugin !! "screenshot") as [u|]; [|cbn; lia].
    destruct (PyStr.is_empty u); [cbn; lia|].
    destruct (validate_url u 10) as [[[] m] t]; cbn; lia. }
  assert (Hr : (length (fst (repo_check plugin)) <= 3)%nat).
  { destruct (plugin !! "repo") as [r|] eqn:Er;
      [|unfold repo_check; rewrite Er; cbn; lia].
    destruct (PyStr.is_empty r) eqn:Ee;
      [unfold repo_check; rewrite Er, Ee; cbn; lia|].
    destruct (fst (fst (validate_url r 10))) eqn:Ev.
    - destruct (repo_check_reachable plugin r Er Ee Ev) as [-> _].
      rewrite cross_check_errors, length_app.
      assert (Hp : (length (fst (path_check r plugin)) <= 1)%nat).
      { unfold path_check. destruct (plugin !! "path") as [pa|]; [|cbn; lia].
        destruct (PyStr.is_empty pa); [cbn; lia|].
        destruct (validate_repo_path r pa) as [[[] m] t]; cbn; [|lia].
        destruct (PyStr.is_empty m); cbn; lia. }
      destruct (fst (fetch_plugin_json _ _)) as [[d|] m]; [|cbn; lia].
      rewrite length_app.
      assert (Hn : (length (name_match plugin d) <= 1)%nat).
      { unfold name_match. destruct (plugin !! "name") as [nm|]; [|cbn; lia].
        destruct (d !! "name") as [rn|]; [|cbn; lia].
        destruct (PyStr.is_empty rn); [cbn; lia|].
        destruct (String.eqb rn nm); cbn; lia. }
      assert (Hm : (length (id_match plugin d) <= 1)%nat).
      { unfold id_match. destruct (plugin !! "id") as [i|]; [|cbn; lia].
        destruct (d !! "id") as [ri|]; [|cbn; lia].
        destruct (PyStr.is_empty ri); [cbn; lia|].
        destruct (String.eqb ri i); cbn; lia. }
      lia.
    - rewrite (repo_check_unreachable plugin r Er Ee Ev). cbn. lia. }
  lia.
Qed.

(** *** Repository paths *)

Lemma lstrip_free (c : ascii) (s : string) :
  free_of c s = true -> PyStr.lstrip c s = s.
Proof.
  destruct s as [|a s]; [reflexivity|]. unfold free_of. simpl.
  destruct (Ascii.eqb a c); [discriminate | reflexivity].
Qed.

Lemma free_of_append (c : ascii) (s t : string) :
  free_of c (s +:+ t) = free_of c s && free_of c t.
Proof. apply all_chars_append. Qed.

Lemma lstrip_free_append (c : ascii) (s t : string) :
  free_of c s = true -> s <> "" -> PyStr.lstrip c (s +:+ t) = s +:+ t.
Proof.
  destruct s as [|a s]; [contradiction|]. unfold free_of. intros H _.
  change (String a s +:+ t) with (String a (s +:+ t)). simpl in *.
  destruct (Ascii.eqb a c); [discriminate | reflexivity].
Qed.

Lemma rstrip_free (c : ascii) (s : string) :
  free_of c s = true -> PyStr.rstrip c s = s.
Proof.
  unfold free_of. induction s as [|a s IH]; [reflexivity|]. simpl.
  intros H. apply andb_true_iff in H as [Ha Hs]. rewrite (IH Hs).
  destruct (Ascii.eqb a c); [discriminate | reflexivity].
Qed.

Lemma is_empty_append (s t : string) :
  t <> "" -> PyStr.is_empty (s +:+ t) = false.
Proof. destruct s; [destruct t; [contradiction | reflexivity] | reflexivity]. Qed.

Lemma rstrip_append_free (c : ascii) (s t : string) :
  free_of c t = true -> t <> "" -> PyStr.rstrip c (s +:+ t) = s +:+ t.
Proof.
  intros Hf Ht. induction s as [|a s IH]; [apply rstrip_free, Hf|].
  change (String a s +:+ t) with (String a (s +:+ t)).
  cbn [PyStr.rstrip]. rewrite IH, (is_empty_append s t Ht), andb_false_r.
  reflexivity.
Qed.

Lemma rstrip_trailing (c : ascii) (s : string) :
  PyStr.rstrip c (s +:+ String c "") = PyStr.rstrip c s.
Proof.
  induction s as [|a s IH].
  - change (PyStr.rstrip c (String c "") = ""). cbn [PyStr.rstrip].
    rewrite Ascii.eqb_refl. reflexivity.
  - change (String a s +:+ String c "") with (String a (s +:+ String c "")).
    cbn [PyStr.rstrip]. rewrite IH. reflexivity.
Qed.

Lemma endswith_append (s suffix : string) :
  PyStr.endswith (s +:+ suffix) suffix = true.
Proof.
  induction s as [|a s IH].
  - change ("" +:+ suffix) with suffix.
    destruct suffix; cbn [PyStr.endswith]; rewrite String.eqb_refl; reflexivity.
  - change (String a s +:+ suffix) with (String a (s +:+ suffix)).
    cbn [PyStr.endswith]. rewrite IH. apply orb_true_r.
Qed.

Lemma eqb_free (c : ascii) (s t : string) :
  free_of c s = false -> free_of c t = true -> String.eqb s t = false.
Proof. intros Hs Ht. apply String.eqb_neq. intros ->. congruence. Qed.

Lemma free_of_sep (c : ascii) (s t : string) :
  free_of c (s +:+ String c t) = false.
Proof.
  rewrite free_of_append. unfold free_of at 2. simpl.
  rewrite Ascii.eqb_refl. apply andb_false_r.
Qed.

(** A suffix without the separator is looked for after the last
    separator only. *)
Lemma endswith_after_sep (c : ascii) (s t suffix : string) :
  free_of c suffix = true ->
  PyStr.endswith (s +:+ String c t) suffix = PyStr.endswith t suffix.
Proof.
  intros Hf. induction s as [|a s IH].
  - change ("" +:+ String c t) with (String c t). cbn [PyStr.endswith].
    rewrite (eqb_free c (String c t) suffix); [reflexivity| |exact Hf].
    apply (free_of_sep c "" t).
  - change (String a s +:+ String c t) with (String a (s +:+ String c t)).
    cbn [PyStr.endswith]. rewrite IH.
    rewrite (eqb_free c (String a (s +:+ String c t)) suffix);
      [reflexivity| |exact Hf].
    apply (free_of_sep c (String a s) t).
Qed.

Lemma length_append (s t : string) :
  String.length (s +:+ t) = (String.length s + String.length t)%nat.
Proof.
  induction s as [|a s IH]; [reflexivity|].
  change (String a s +:+ t) with (String a (s +:+ t)). simpl. rewrite IH.
  reflexivity.
Qed.

Lemma substring_prefix (s t : string) :
  String.substring 0 (String.length s) (s +:+ t) = s.
Proof.
  induction s as [|a s IH]; [destruct t; reflexivity|].
  change (String a s +:+ t) with (String a (s +:+ t)). simpl. rewrite IH.
  reflexivity.
Qed.

Lemma drop_last_append (s suffix : string) :
  PyStr.drop_last (String.length suffix) (s +:+ suffix) = s.
Proof.
  unfold PyStr.drop_last. rewrite length_append.
  replace (String.length s + String.length suffix - String.length suffix)%nat
    with (String.length s) by lia.
  apply substring_prefix.
Qed.

Lemma split_free (c : ascii) (s : string) :
  free_of c s = true -> PyStr.split c s = [s].
Proof.
  unfold free_of. induction s as [|a s IH]; [reflexivity|]. simpl.
  intros H. apply andb_true_iff in H as [Ha Hs]. rewrite (IH Hs).
  destruct (Ascii.eqb a c); [discriminate | reflexivity].
Qed.

Lemma split_sep (c : ascii) (s t : string) :
  free_of c s = true ->
  PyStr.split c (s +:+ String c t) = s :: PyStr.split c t.
Proof.
  unfold free_of. induction s as [|a s IH]; intros H.
  - change ("" +:+ String c t) with (String c t). cbn [PyStr.split].
    rewrite Ascii.eqb_refl. reflexivity.
  - change (String a s +:+ String c t) with (String a (s +:+ String c t)).
    simpl in H. apply andb_true_iff in H as [Ha Hs].
    cbn [PyStr.split]. rewrite (IH Hs).
    destruct (Ascii.eqb a c); [discriminate | reflexivity].
Qed.

Lemma append_assoc (s t u : string) : (s +:+ t) +:+ u = s +:+ (t +:+ u).
Proof.
  induction s as [|a s IH]; [reflexivity|].
  change (String a ((s +:+ t) +:+ u) = String a (s +:+ (t +:+ u))).
  rewrite IH. reflexivity.
Qed.

(** X11: a repository URL whose path is /owner/repo, with or without a
    final ".git" and with or without a final slash, gives the owner and
    the repository: the two segments both [validate_repo_path] and
    [fetch_plugin_json] build their requests from. *)
Theorem path_parts_of_repository (parsed : Url.parse_result)
    (owner repo : string) :
  owner <> "" -> free_of "/" owner = true ->
  repo <> "" -> free_of "/" repo = true ->
  PyStr.endswith repo ".git" = false ->
  Url.path parsed = "/" +:+ owner +:+ "/" +:+ repo \/
  Url.path parsed = "/" +:+ owner +:+ "/" +:+ repo +:+ "/" \/
  Url.path parsed = "/" +:+ owner +:+ "/" +:+ repo +:+ ".git" \/
  Url.path parsed = "/" +:+ owner +:+ "/" +:+ repo +:+ ".git/" ->
  path_parts parsed = [owner; repo].
Proof.
  intros Ho Hof Hr Hrf Hgit Hpath.
  assert (Hsplit : PyStr.split "/" (owner +:+ "/" +:+ repo) = [owner; repo]).
  { change (owner +:+ "/" +:+ repo) with (owner +:+ String "/" repo).
    rewrite (split_sep _ _ _ Hof), (split_free _ _ Hrf). reflexivity. }
  assert (Hplain : PyStr.endswith (owner +:+ "/" +:+ repo) ".git" = false).
  { change (owner +:+ "/" +:+ repo) with (owner +:+ String "/" repo).
    rewrite endswith_after_sep; [exact Hgit | reflexivity]. }
  assert (Hstrip : forall rest,
             free_of "/" rest = true -> rest <> "" ->
             PyStr.strip "/" ("/" +:+ owner +:+ "/" +:+ rest)
             = owner +:+ "/" +:+ rest).
  { intros rest Hf Hne. unfold PyStr.strip.
    change ("/" +:+ owner +:+ "/" +:+ rest)
      with (String "/" (owner +:+ "/" +:+ rest)).
    cbn [PyStr.lstrip]. change (Ascii.eqb "/" "/") with true. cbv iota.
    rewrite (lstrip_free_append _ _ _ Hof Ho).
    change (owner +:+ "/" +:+ rest) with (owner +:+ (String "/" "" +:+ rest)).
    rewrite <- append_assoc. apply rstrip_append_free; assumption. }
  assert (Hstrip' : forall rest,
             free_of "/" rest = true -> rest <> "" ->
             PyStr.strip "/" ("/" +:+ owner +:+ "/" +:+ rest +:+ "/")
             = owner +:+ "/" +:+ rest).
  { intros rest Hf Hne. rewrite <- (Hstrip rest Hf Hne). unfold PyStr.strip.
    change ("/" +:+ owner +:+ "/" +:+ rest +:+ "/")
      with (String "/" (owner +:+ "/" +:+ rest +:+ "/")).
    change ("/" +:+ owner +:+ "/" +:+ rest)
      with (String "/" (owner +:+ "/" +:+ rest)).
    cbn [PyStr.lstrip]. change (Ascii.eqb "/" "/") with true. cbv iota.
    rewrite !(lstrip_free_append _ _ _ Hof Ho).
    replace (owner +:+ "/" +:+ rest +:+ "/")
      with ((owner +:+ "/" +:+ rest) +:+ String "/" "").
    - apply rstrip_trailing.
    - rewrite !append_assoc. reflexivity. }
  assert (Hgit' : free_of "/" (repo +:+ ".git") = true).
  { rewrite free_of_append, Hrf. reflexivity. }
  assert (Hne : repo +:+ ".git" <> "").
  { destruct repo; [contradiction | discriminate]. }
  assert (Hdrop : PyStr.drop_last 4 (owner +:+ "/" +:+ repo +:+ ".git")
                  = owner +:+ "/" +:+ repo).
  { replace (owner +:+ "/" +:+ repo +:+ ".git")
      with ((owner +:+ "/" +:+ repo) +:+ ".git")
      by (rewrite !append_assoc; reflexivity).
    apply (drop_last_append _ ".git"). }
  assert (Hend : PyStr.endswith (owner +:+ "/" +:+ repo +:+ ".git") ".git"
                 = true).
  { replace (owner +:+ "/" +:+ repo +:+ ".git")
      with ((owner +:+ "/" +:+ repo) +:+ ".git")
      by (rewrite !append_assoc; reflexivity).
    apply endswith_append. }
  unfold path_parts.
  destruct Hpath as [-> | [-> | [-> | ->]]].
  - rewrite (Hstrip repo Hrf Hr), Hplain. exact Hsplit.
  - rewrite (Hstrip' repo Hrf Hr), Hplain. exact Hsplit.
  - rewrite (Hstrip (repo +:+ ".git") Hgit' Hne), Hend, Hdrop. exact Hsplit.
  - change ("/" +:+ owner +:+ "/" +:+ repo +:+ ".git/")
      with ("/" +:+ owner +:+ "/" +:+ repo +:+ (".git" +:+ "/")).
    replace ("/" +:+ owner +:+ "/" +:+ repo +:+ (".git" +:+ "/"))
      with ("/" +:+ owner +:+ "/" +:+ (repo +:+ ".git") +:+ "/")
      by (rewrite !append_assoc; reflexivity).
    rewrite (Hstrip' (repo +:+ ".git") Hgit' Hne).
    replace (owner +:+ "/" +:+ (repo +:+ ".git"))
      with (owner +:+ "/" +:+ repo +:+ ".git").
    + rewrite Hend, Hdrop. exact Hsplit.
    + reflexivity.
Qed.

(** *** The summary of [main] *)

Lemma main_code (plugins_dir : option (list plugin_file)) :
  fst (main plugins_dir) =
  match plugins_dir with
  | None => 1
  | Some entries =>
      match fst (validate_all (sorted (glob_json entries)) []) with
      | [] => 0
      | _ :: _ => 1
      end
  end.
Proof.
  unfold main. destruct plugins_dir as [entries|]; [|reflexivity].
  destruct (glob_json entries) as [|f fs] eqn:E; [reflexivity|].
  rewrite !fst_bind.
  destruct (fst (validate_all _ _)); reflexivity.
Qed.

Lemma insert_sorted_Permutation (f : plugin_file) (l : list plugin_file) :
  Permutation (insert_sorted f l) (f :: l).
Proof.
  induction l as [|g l IH]; [reflexivity|]. simpl.
  destruct (String.ltb (name g) (name f)); [|reflexivity].
  rewrite IH. apply perm_swap.
Qed.

Lemma sorted_Permutation (l : list plugin_file) : Permutation (sorted l) l.
Proof.
  induction l as [|f l IH]; [reflexivity|].
  cbn [sorted foldr]. fold (sorted l).
  rewrite insert_sorted_Permutation. constructor. exact IH.
Qed.

Lemma glob_json_Permutation (l l' : list plugin_file) :
  Permutation l l' -> Permutation (glob_json l) (glob_json l').
Proof.
  unfold glob_json. induction 1 as [|x l l' _ IH|x y l|l l' l'' _ IH1 _ IH2].
  - reflexivity.
  - simpl. destruct (PyStr.endswith (name x) ".json"); [constructor|]; exact IH.
  - simpl. destruct (PyStr.endswith (name x) ".json");
      destruct (PyStr.endswith (name y) ".json"); try reflexivity.
    apply perm_swap.
  - etransitivity; eassumption.
Qed.

(** X12: the exit code of [main] does not depend on the order in which the
    directory lists its entries. *)
Theorem main_exit_code_any_order (entries entries' : list plugin_file) :
  Permutation entries entries' ->
  fst (main (Some entries)) = fst (main (Some entries')).
Proof.
  intros Hperm. rewrite !main_code.
  assert (Hiff : fst (validate_all (sorted (glob_json entries)) []) = [] <->
                 fst (validate_all (sorted (glob_json entries')) []) = []).
  { rewrite !validate_all_nil.
    assert (Hin : forall f, In f (sorted (glob_json entries)) <->
                            In f (sorted (glob_json entries'))).
    { intros f. rewrite !sorted_In. split; apply Permutation_in;
        [|symmetry]; apply glob_json_Permutation, Hperm. }
    split; intros [_ H]; (split; [reflexivity|]); intros f Hf;
      apply H, Hin, Hf. }
  destruct (fst (validate_all (sorted (glob_json entries)) [])) as [|x l];
    destruct (fst (validate_all (sorted (glob_json entries')) [])) as [|x' l'];
    try reflexivity.
  - destruct Hiff as [H _]. specialize (H eq_refl). discriminate H.
  - destruct Hiff as [_ H]. specialize (H eq_refl). discriminate H.
Qed.

Lemma dict_set_fresh (d : list (string * list string)) (key : string)
    (value : list string) :
  ~ In key (map fst d) -> dict_set d key value = d ++ [(key, value)].
Proof.
  induction d as [|[k v] d IH]; intros H; [reflexivity|]. simpl.
  destruct (String.eqb k key) eqn:E.
  - apply String.eqb_eq in E. subst k. elim H. left. reflexivity.
  - rewrite IH; [reflexivity|]. intros Hin. apply H. right. exact Hin.
Qed.

(** With distinct file names the loop records every file that has errors,
    in order, and nothing is overwritten. *)
Lemma validate_all_failures (plugin_files : list plugin_file)
    (all_errors : list (string * list string)) :
  List.NoDup (map name plugin_files) ->
  (forall f, In f plugin_files -> ~ In (name f) (map fst all_errors)) ->
  fst (validate_all plugin_files all_errors)
  = all_errors ++ failures plugin_files.
Proof.
  revert all_errors.
  induction plugin_files as [|f fs IH]; intros all_errors Hnd Hfresh.
  - cbn. rewrite app_nil_r. reflexivity.
  - cbn [validate_all]. rewrite !fst_bind.
    cbn [map] in Hnd. apply List.NoDup_cons_iff in Hnd as [Hf Hnd].
    unfold failures. cbn [flat_map]. fold (failures fs).
    destruct (fst (validate_plugin f)) as [|e errors] eqn:E.
    + rewrite fst_bind. cbn [ret fst]. rewrite IH; [reflexivity|exact Hnd|].
      intros g Hg. apply Hfresh. right. exact Hg.
    + rewrite fst_bind. cbn [ret fst].
      rewrite dict_set_fresh by (apply Hfresh; left; reflexivity).
      rewrite IH; [rewrite <- app_assoc; reflexivity|exact Hnd|].
      intros g Hg. rewrite map_app, in_app_iff. intros [Hin | [Heq | []]].
      * exact (Hfresh g (or_intror Hg) Hin).
      * cbn in Heq. apply Hf. rewrite Heq. apply in_map, Hg.
Qed.

Lemma print_errors_In (errors : list string) (e : string) :
  In e errors ->
  In (Printed ("  - " +:+ e +:+ newline)) (snd (print_errors errors)).
Proof.
  induction errors as [|e' errors IH]; intros H; [destruct H|].
  cbn [print_errors]. unfold bind. cbn [snd]. apply in_app_iff.
  destruct H as [-> | H]; [left | right; apply IH, H].
  unfold print, print_end. cbn [snd]. left.
  rewrite append_assoc. reflexivity.
Qed.

Lemma print_failures_In (items : list (string * list string))
    (filename : string) (errors : list string) :
  In (filename, errors) items ->
  In (Printed (RED +:+ "✗ " +:+ filename +:+ RESET +:+ newline))
     (snd (print_failures items)) /\
  forall e, In e errors ->
            In (Printed ("  - " +:+ e +:+ newline)) (snd (print_failures items)).
Proof.
  induction items as [|[k v] items IH]; intros H; [destruct H|].
  cbn [print_failures]. unfold bind at 1. cbn [snd fst].
  destruct H as [[= -> ->] | H].
  - split.
    + apply in_app_iff. left. unfold print, print_end. cbn [snd]. left.
      rewrite !append_assoc. reflexivity.
    + intros e He. apply in_app_iff. right. unfold bind at 1. cbn [snd].
      apply in_app_iff. left. apply print_errors_In, He.
  - destruct (IH H) as [H1 H2]. split.
    + apply in_app_iff. right. unfold bind. cbn [snd].
      apply in_app_iff. right. apply in_app_iff. right. exact H1.
    + intros e He. apply in_app_iff. right. unfold bind. cbn [snd].
      apply in_app_iff. right. apply in_app_iff. right. apply H2, He.
Qed.

(** X13: when the entries of the directory have distinct names, no error
    is lost: for every plugin file with errors, the summary of [main]
    prints the line with the file's name and one line for each of its
    errors, the count it announces is the number of files with errors,
    and the exit code is 1. *)
Theorem main_reports_every_error (entries : list plugin_file)
    (f : plugin_file) :
  List.NoDup (map name entries) ->
  In f (glob_json entries) ->
  fst (validate_plugin f) <> [] ->
  let printed := snd (main (Some entries)) in
  fst (main (Some entries)) = 1 /\
  In (Printed ((RED +:+ "Validation failed for "
                  +:+ PyStr.of_int
                        (Z.of_nat
                           (length (failures (sorted (glob_json entries)))))
                  +:+ " plugin(s):" +:+ RESET +:+ newline) +:+ newline))
     printed /\
  In (Printed (RED +:+ "✗ " +:+ name f +:+ RESET +:+ newline)) printed /\
  forall e, In e (fst (validate_plugin f)) ->
            In (Printed ("  - " +:+ e +:+ newline)) printed.
Proof.
  intros Hnd Hf Herr. cbv zeta.
  assert (Hnd' : List.NoDup (map name (sorted (glob_json entries)))).
  { apply (Permutation_NoDup (l := map name (glob_json entries))).
    - apply Permutation_map. symmetry. apply sorted_Permutation.
    - unfold glob_json. clear Hf. induction entries as [|g l IH]; [constructor|].
      cbn [map] in Hnd. apply List.NoDup_cons_iff in Hnd as [Hg Hnd]. simpl.
      destruct (PyStr.endswith (name g) ".json"); [|apply IH, Hnd].
      cbn. constructor; [|apply IH, Hnd].
      intros Hin. apply Hg. apply in_map_iff in Hin as (x & Hx & Hin).
      apply filter_In in Hin as [Hin _]. rewrite <- Hx. apply in_map, Hin. }
  assert (Hall : fst (validate_all (sorted (glob_json entries)) [])
                 = failures (sorted (glob_json entries))).
  { rewrite validate_all_failures; [reflexivity | exact Hnd' | auto]. }
  assert (Hin : In (name f, fst (validate_plugin f))
                   (failures (sorted (glob_json entries)))).
  { unfold failures. apply in_flat_map. exists f.
    split; [apply sorted_In, Hf|].
    destruct (fst (validate_plugin f)); [contradiction | left; reflexivity]. }
  assert (Hmain : forall x l,
             failures (sorted (glob_json entries)) = x :: l ->
             fst (main (Some entries)) = 1 /\
             forall ev,
               ev = Printed ((RED +:+ "Validation failed for "
                                +:+ PyStr.of_int (Z.of_nat (length (x :: l)))
                                +:+ " plugin(s):" +:+ RESET +:+ newline)
                               +:+ newline) \/
               In ev (snd (print_failures (x :: l))) ->
               In ev (snd (main (Some entries)))).
  { intros x l Hx. rewrite main_code, Hall, Hx. split; [reflexivity|].
    intros ev Hev. unfold main.
    destruct (glob_json entries) as [|g gs] eqn:Eg; [destruct Hf|].
    unfold bind at 1. cbn [snd]. apply in_app_iff. right.
    unfold bind at 1. cbn [snd fst]. apply in_app_iff. right.
    unfold bind at 1. cbn [snd fst]. apply in_app_iff. right.
    rewrite Hall, Hx. unfold bind at 1. cbn [snd fst].
    destruct Hev as [-> | Hev].
    - apply in_app_iff. left. left. reflexivity.
    - apply in_app_iff. right. unfold bind at 1. cbn [snd].
      apply in_app_iff. left. exact Hev. }
  destruct (failures (sorted (glob_json entries))) as [|x l] eqn:Ex;
    [destruct Hin|].
  destruct (Hmain x l eq_refl) as [Hcode Hprinted].
  destruct (print_failures_In (x :: l) (name f) (fst (validate_plugin f)) Hin)
    as [H1 H2].
  split; [exact Hcode|]. split; [apply Hprinted; left; reflexivity|].
  split; [apply Hprinted; right; exact H1|].
  intros e He. apply Hprinted. right. apply H2, He.
Qed.

(** *** The order of the files *)

Lemma ltb_asym (s t : string) :
  String.ltb s t = true -> String.ltb t s = false.
Proof.
  unfold String.ltb. rewrite (String.compare_antisym t s).
  destruct (String.compare s t); simpl; congruence.
Qed.

(** X14: [sorted] keeps the files and puts them in non-decreasing order of
    name: no file comes before one with a smaller name. *)
Theorem sorted_by_name (l : list plugin_file) :
  Permutation (sorted l) l /\
  Sorted (fun f g => String.ltb (name g) (name f) = false) (sorted l).
Proof.
  split; [apply sorted_Permutation|].
  induction l as [|f l IH]; [constructor|].
  cbn [sorted foldr]. fold (sorted l).
  induction IH as [|g l' Hs IH' Hhd]; [repeat constructor|].
  cbn [insert_sorted]. destruct (String.ltb (name g) (name f)) eqn:E.
  - constructor; [exact IH'|].
    destruct l' as [|h l'']; cbn [insert_sorted].
    + constructor. apply ltb_asym, E.
    + destruct (String.ltb (name h) (name f)).
      * constructor. inversion Hhd. assumption.
      * constructor. apply ltb_asym, E.
  - constructor; [constructor; assumption|]. constructor. exact E.
Qed.

End Script.

(** ** The script on concrete inputs *)

(** C10 at a URL that names an owner only. *)
Lemma invalid_repository_url_witness :
  validate_repo_path Url.urlparse None (Examples.serving Examples.foo_bar)
    "https://github.com/owner" "plugins/fooBar"
  = ((false, "Invalid repository URL format"), []) /\
  fetch_plugin_json Url.urlparse None (Examples.serving Examples.foo_bar)
    "https://github.com/owner" "plugins/fooBar"
  = ((None, "Invalid repository URL format"), []).
Proof.
  apply (invalid_repository_url Url.urlparse None
           (Examples.serving Examples.foo_bar)).
  vm_compute. lia.
Defined.

(** C2 as stated fails: the record is on an unsupported host, has a path
    and a reachable repository, and its error list is not empty. *)
Lemma unsupported_host_record_has_error :
  Examples.on_unsupported_host !! "repo"
    = Some "https://git.example.org/owner/repo" /\
  Examples.on_unsupported_host !! "path" = Some "plugins/fooBar" /\
  supported_host (Url.netloc (Url.urlparse "https://git.example.org/owner/repo"))
    = false /\
  fst (validate_url (Examples.serving Examples.foo_bar)
         "https://git.example.org/owner/repo" 10) = (true, "") /\
  fst (validate_plugin Url.urlparse None (Examples.serving Examples.foo_bar)
         (PluginFile "fooBar.json" (Json Examples.on_unsupported_host)))
  = ["Failed to fetch repository plugin.json: Unsupported hosting service: git.example.org"].
Proof. repeat split. Qed.

(** C2, amended, at the same record. *)
Lemma unsupported_host_path_skipped_witness :
  validate_repo_path Url.urlparse None (Examples.serving Examples.foo_bar)
    "https://git.example.org/owner/repo" "plugins/fooBar"
  = ((true, "Warning: Path validation skipped for git.example.org (unsupported hosting service)"), []).
Proof.
  apply (unsupported_host_path_skipped Url.urlparse None
           (Examples.serving Examples.foo_bar) "fooBar.json"
           Examples.on_unsupported_host
           "https://git.example.org/owner/repo" "plugins/fooBar");
    first [reflexivity | vm_compute; lia].
Defined.

(** C3 as stated fails: the record has no name, the file's stem is
    "fooBar", the repository's [plugin.json] is named "Something Else" or
    has no name at all, and no error is reported. *)
Lemma stem_is_not_compared :
  Examples.on_github_unnamed !! "name" = None /\
  stem (PluginFile "fooBar.json" (Json Examples.on_github_unnamed)) = "fooBar" /\
  Examples.renamed !! "name" = Some "Something Else" /\
  Examples.baz_qux !! "name" = None /\
  fst (validate_plugin Url.urlparse None (Examples.serving Examples.renamed)
         (PluginFile "fooBar.json" (Json Examples.on_github_unnamed))) = [] /\
  fst (validate_plugin Url.urlparse None (Examples.serving Examples.baz_qux)
         (PluginFile "bazQux.json" (Json Examples.on_github_unnamed)))
  = ["ID mismatch: registry has 'fooBar' but repository plugin.json has 'bazQux'"].
Proof. repeat split. Qed.

(** C3, amended, at a record with a name against a renamed repository. *)
Lemma name_compared_only_when_declared_witness :
  List.filter is_name_error
    (fst (validate_plugin Url.urlparse None (Examples.serving Examples.renamed)
            (PluginFile "fooBar.json" (Json Examples.on_github))))
  = ["Name mismatch: registry has 'Foo' but repository plugin.json has 'Something Else'"].
Proof.
  apply (proj2 (proj2 (name_compared_only_when_declared Url.urlparse None
                         (Examples.serving Examples.renamed) "fooBar.json"
                         Examples.on_github))
           "Foo" "https://github.com/owner/repo" Examples.renamed);
    reflexivity.
Defined.

(** C4 as stated fails: the response for "main" has status 201, which is
    in the 2xx range, and it is not accepted. *)
Lemma github_201_is_not_accepted :
  raw_file Examples.created_on_main
    (github_raw_request None "owner" "repo" "main" "plugin.json")
  = Returned (Response 201 (inr Examples.foo_bar)) /\
  fetch_plugin_json Url.urlparse None Examples.created_on_main
    "https://github.com/owner/repo" ""
  = ((None, "plugin.json not found at plugin.json"),
     [Sent (github_raw_request None "owner" "repo" "main" "plugin.json");
      Sent (github_raw_request None "owner" "repo" "master" "plugin.json")]).
Proof. split; reflexivity. Qed.

(** C4, amended, on a network that serves the file on "main". *)
Lemma github_fetch_tries_main_then_master_witness :
  fetch_plugin_json Url.urlparse None (Examples.serving Examples.foo_bar)
    "https://github.com/owner/repo" ""
  = ((Some Examples.foo_bar, ""),
     [Sent (github_raw_request None "owner" "repo" "main" "plugin.json")]).
Proof.
  apply (proj1 (github_fetch_tries_main_then_master Url.urlparse None
                  (Examples.serving Examples.foo_bar)
                  "https://github.com/owner/repo" "" eq_refl
                  ltac:(vm_compute; lia))
           (Response 200 (inr Examples.foo_bar)));
    reflexivity.
Defined.

(** C5 at a record whose screenshot is unreachable and whose repository
    is reachable: the screenshot error is reported, and the raw
    [plugin.json] is requested and compared all the same. *)
Lemma failures_accumulate_witness :
  validate_plugin Url.urlparse None
    (Examples.serving_without_screenshot Examples.baz_qux)
    (PluginFile "fooBar.json" (Json Examples.on_github))
  = (["Screenshot URL unreachable: HTTP 404";
      "Repository plugin.json is missing 'name' field";
      "ID mismatch: registry has 'fooBar' but repository plugin.json has 'bazQux'"],
     [Sent (head_request Examples.screenshot_url 10);
      Sent (head_request "https://github.com/owner/repo" 10);
      Sent (github_raw_request None "owner" "repo" "main" "plugin.json")]).
Proof.
  destruct (failures_accumulate Url.urlparse None
              (Examples.serving_without_screenshot Examples.baz_qux)
              "fooBar.json" Examples.on_github)
    as (He & Hs & Hshot & Hrepo).
  specialize (Hshot Examples.screenshot_url eq_refl eq_refl eq_refl).
  destruct (proj1 (Hrepo "https://github.com/owner/repo" eq_refl eq_refl)
              eq_refl) as (Hre & Hrs & _ & Hcross).
  apply injective_projections.
  - rewrite He, Hshot, Hre, Hcross. reflexivity.
  - rewrite Hs, Hshot, Hrs. reflexivity.
Defined.

(** C7 as stated fails: the remote id is present and differs from the
    local one, and the one error reported is no "ID mismatch". *)
Lemma empty_remote_id_is_reported_missing :
  Examples.on_github_unnamed !! "id" = Some "fooBar" /\
  Examples.empty_id !! "id" = Some "" /\
  fst (validate_url (Examples.serving Examples.empty_id)
         "https://github.com/owner/repo" 10) = (true, "") /\
  fst (fetch_plugin_json Url.urlparse None (Examples.serving Examples.empty_id)
         "https://github.com/owner/repo" "") = (Some Examples.empty_id, "") /\
  fst (validate_plugin Url.urlparse None (Examples.serving Examples.empty_id)
         (PluginFile "fooBar.json" (Json Examples.on_github_unnamed)))
  = ["Repository plugin.json is missing 'id' field"].
Proof. repeat split. Qed.

(** C7, amended, at the two records of the description. *)
Lemma id_cross_check_witness :
  List.filter (has_prefix "ID mismatch")
    (fst (validate_plugin Url.urlparse None (Examples.serving Examples.baz_qux)
            (PluginFile "fooBar.json" (Json Examples.on_github_unnamed))))
  = ["ID mismatch: registry has 'fooBar' but repository plugin.json has 'bazQux'"] /\
  count (has_prefix "ID mismatch")
    (fst (validate_plugin Url.urlparse None (Examples.serving Examples.foo_bar)
            (PluginFile "fooBar.json" (Json Examples.on_github)))) = 0%nat.
Proof.
  split.
  - apply (proj1 (id_cross_check Url.urlparse None
                    (Examples.serving Examples.baz_qux) "fooBar.json"
                    Examples.on_github_unnamed Examples.baz_qux
                    "fooBar" "https://github.com/owner/repo"
                    eq_refl eq_refl eq_refl eq_refl eq_refl) "bazQux");
      [reflexivity | reflexivity | discriminate].
  - apply (proj2 (id_cross_check Url.urlparse None
                    (Examples.serving Examples.foo_bar) "fooBar.json"
                    Examples.on_github Examples.foo_bar
                    "fooBar" "https://github.com/owner/repo"
                    eq_refl eq_refl eq_refl eq_refl eq_refl));
      reflexivity.
Defined.

(** [main] on a missing directory, on a directory without plugin files, on
    one valid plugin, and on a valid and an invalid plugin. *)
Example main_runs :
  main Url.urlparse None (Examples.serving Examples.foo_bar) None
  = (1, [Printed (RED +:+ "Error: plugins/ directory not found" +:+ RESET
                    +:+ newline)]) /\
  fst (main Url.urlparse None (Examples.serving Examples.foo_bar)
         (Some [PluginFile "README.md" (NotJson "Expecting value")])) = 0 /\
  fst (main Url.urlparse None (Examples.serving Examples.foo_bar)
         (Some [PluginFile "fooBar.json" (Json Examples.on_github)])) = 0 /\
  fst (main Url.urlparse None (Examples.serving Examples.foo_bar)
         (Some [PluginFile "fooBar.json" (Json Examples.on_github);
                PluginFile "broken.json" (NotJson "Expecting value")])) = 1.
Proof. repeat split. Qed.

Example str_of_status : PyStr.of_int 404 = "404".
Proof. reflexivity. Qed.

Example path_parts_of_clone_url :
  path_parts (Url.urlparse "https://github.com/owner/repo.git/")
  = ["owner"; "repo"].
Proof. reflexivity. Qed.
(** X1 at "myPlugin2". *)
Lemma is_camel_case_of_rule_witness : is_camel_case "myPlugin2" = true.
Proof.
  apply is_camel_case_of_rule.
  split; [discriminate|]. split; [|reflexivity].
  exists "m"%char, "yPlugin2". split; reflexivity.
Defined.

(** X2 at "a" followed by a newline. *)
Lemma is_camel_case_rule_or_newline_witness :
  camel_case_rule ("a" +:+ newline) \/
  exists s', "a" +:+ newline = s' +:+ newline /\ camel_case_rule s'.
Proof. apply is_camel_case_rule_or_newline. reflexivity. Defined.

(** X3 at "myPlugin2". *)
Lemma is_camel_case_no_separator_witness :
  all_chars (fun c => negb (separator c)) "myPlugin2" = true.
Proof. apply (is_camel_case_no_separator "myPlugin2"). reflexivity. Defined.
(** X10 at the record on git.example.org. *)
Lemma unsupported_host_never_validates_witness :
  fst (validate_plugin Url.urlparse None (Examples.serving Examples.foo_bar)
         (PluginFile "fooBar.json" (Json Examples.on_unsupported_host)))
  <> [].
Proof.
  apply (unsupported_host_never_validates Url.urlparse None
           (Examples.serving Examples.foo_bar) "fooBar.json"
           Examples.on_unsupported_host
           "https://git.example.org/owner/repo");
    reflexivity.
Defined.

(** X11 at a clone URL. *)
Lemma path_parts_of_repository_witness :
  path_parts (Url.urlparse "https://github.com/owner/repo.git")
  = ["owner"; "repo"].
Proof.
  apply path_parts_of_repository;
    [discriminate | reflexivity | discriminate | reflexivity | reflexivity |].
  right. right. left. reflexivity.
Defined.

(** X12 at a directory with a valid and an invalid plugin, listed in both
    orders. *)
Lemma main_exit_code_any_order_witness :
  fst (main Url.urlparse None (Examples.serving Examples.foo_bar)
         (Some [PluginFile "fooBar.json" (Json Examples.on_github);
                PluginFile "broken.json" (NotJson "Expecting value")]))
  = fst (main Url.urlparse None (Examples.serving Examples.foo_bar)
           (Some [PluginFile "broken.json" (NotJson "Expecting value");
                  PluginFile "fooBar.json" (Json Examples.on_github)])).
Proof. apply main_exit_code_any_order. apply perm_swap. Defined.

(** X13 at the same directory: the error of broken.json is printed. *)
Lemma main_reports_every_error_witness :
  In (Printed ("  - " +:+ "Invalid JSON: Expecting value" +:+ newline))
     (snd (main Url.urlparse None (Examples.serving Examples.foo_bar)
             (Some [PluginFile "fooBar.json" (Json Examples.on_github);
                    PluginFile "broken.json" (NotJson "Expecting value")]))).
Proof.
  apply (main_reports_every_error Url.urlparse None
           (Examples.serving Examples.foo_bar)
           [PluginFile "fooBar.json" (Json Examples.on_github);
            PluginFile "broken.json" (NotJson "Expecting value")]
           (PluginFile "broken.json" (NotJson "Expecting value"))).
  - repeat constructor; cbn; intuition discriminate.
  - right. left. reflexivity.
  - discriminate.
  - left. reflexivity.
Defined.

(** The bounds of five errors and seven requests are reached: a record
    with a path and a malformed id, on a network that refuses HEAD, has
    lost the screenshot and the path, and serves another plugin's
    [plugin.json] on "master" only. *)
Example bounds_are_reached :
  length (fst (validate_plugin Url.urlparse None Examples.worst_case
                 (PluginFile "foo_bar.json" (Json Examples.worst_record))))
  = 5%nat /\
  length (requests_of
            (snd (validate_plugin Url.urlparse None Examples.worst_case
                    (PluginFile "foo_bar.json" (Json Examples.worst_record)))))
  = 7%nat.
Proof. split; reflexivity. Qed.
